(** * api/euler-stats.py: the Project Euler stats card endpoint

    A shallow embedding of [get_euler_stats] and [handle_request] and the
    properties of the profile-line parser and of the response mapping.

    Conventions of the embedding.
    - A Python [str] is a [string] whose characters are read as the code
      points U+0000..U+00FF (one [ascii] per code point, not per UTF-8 byte).
      The character classes of [str.strip], [str.isdigit], [str.lower] and
      [int] below are the Unicode ones restricted to that range.
    - A Python [int] is a [Z].
    - [None] is [None]; a value that may be [None] is an [option].
    - An exception is a value of [exn]; code that may raise returns in
      [exn + A], and code that also talks to the network runs in [IO].
    - [print] calls only write to the server log and are left out. *)

From Stdlib Require Import ZArith List String Ascii Bool Lia.
From stdpp Require Import base option list gmap strings.

Open Scope string_scope.
Open Scope Z_scope.

(** ** Python built-ins used by the module *)

Module Py.

(** Code point of a character. *)
Definition ord (c : ascii) : N := N_of_ascii c.

Definition between (lo hi : N) (c : ascii) : bool :=
  ((lo <=? ord c) && (ord c <=? hi))%N.

(** [Py_UNICODE_ISSPACE]: the characters [str.strip()] removes. Below
    U+0100 these are TAB..CR, the separators FS..US, SPACE, NEL and NBSP. *)
Definition isspace (c : ascii) : bool :=
  between 9 13 c || between 28 32 c || (ord c =? 133)%N || (ord c =? 160)%N.

Fixpoint lstrip (s : string) : string :=
  match s with
  | String c r => if isspace c then lstrip r else s
  | EmptyString => EmptyString
  end.

Fixpoint rstrip (s : string) : string :=
  match s with
  | String c r =>
      match rstrip r with
      | EmptyString => if isspace c then EmptyString else String c EmptyString
      | r' => String c r'
      end
  | EmptyString => EmptyString
  end.

(** [s.strip()] *)
Definition strip (s : string) : string := rstrip (lstrip s).

(** [s.split(sep)] for a one-character separator, as the first field and
    the fields after it: the result of [split] is never the empty list. *)
Fixpoint split_fields (sep : ascii) (s : string) : string * list string :=
  match s with
  | String c r =>
      let '(f, fs) := split_fields sep r in
      if Ascii.eqb c sep then (EmptyString, f :: fs) else (String c f, fs)
  | EmptyString => (EmptyString, [])
  end.

Definition split (sep : ascii) (s : string) : list string :=
  let '(f, fs) := split_fields sep s in f :: fs.

(** The characters [str.isdigit] accepts are those of Numeric_Type Decimal
    or Digit: the decimal characters and the digits that need special
    handling, such as the compatibility superscript digits. Below U+0100
    these are the ASCII digits and the superscripts U+00B2, U+00B3 and
    U+00B9. [int] takes only the decimal ones (see [int] below). *)
Definition is_ascii_digit (c : ascii) : bool := between 48 57 c.

Definition isdigit_char (c : ascii) : bool :=
  is_ascii_digit c || (ord c =? 178)%N || (ord c =? 179)%N || (ord c =? 185)%N.

Fixpoint all_chars (p : ascii -> bool) (s : string) : bool :=
  match s with
  | String c r => p c && all_chars p r
  | EmptyString => true
  end.

Definition nonempty (s : string) : bool :=
  match s with EmptyString => false | String _ _ => true end.

(** [s.isdigit()]: at least one character, and every character a digit. *)
Definition isdigit (s : string) : bool := nonempty s && all_chars isdigit_char s.

(** [s.lower()] *)
Definition lower_char (c : ascii) : bool * ascii :=
  (between 65 90 c || (between 192 222 c && negb (ord c =? 215)%N),
   ascii_of_N (ord c + 32)).

Fixpoint lower (s : string) : string :=
  match s with
  | String c r =>
      let '(upper, c') := lower_char c in
      String (if upper then c' else c) (lower r)
  | EmptyString => EmptyString
  end.

(** [needle in hay] *)
Fixpoint contains (needle hay : string) : bool :=
  String.prefix needle hay
  || match hay with
     | String _ r => contains needle r
     | EmptyString => false
     end.

(** *** [int(s)]

    A string is first mapped by [_PyUnicode_TransformDecimalAndSpaceToASCII]
    (code points below 127 stay, other white space becomes a blank, other
    decimal digits become ASCII digits, of which there are none below
    U+0100, and anything else is rejected); the ASCII text is then read by
    [PyLong_FromString] in base 10: blanks, an optional sign, digits
    separated by single underscores, blanks. *)

(** White space for [int]: [Py_ISSPACE] below 127, [Py_UNICODE_ISSPACE] above. *)
Definition int_space (c : ascii) : bool :=
  between 9 13 c || (ord c =? 32)%N || (ord c =? 133)%N || (ord c =? 160)%N.

Fixpoint skip_spaces (s : string) : string :=
  match s with
  | String c r => if int_space c then skip_spaces r else s
  | EmptyString => EmptyString
  end.

Definition digit_value (c : ascii) : Z := Z.of_N (ord c) - 48.

(** The digit loop of [long_from_string_base]: [prev] tells whether the
    previous character was an underscore, [acc] is the value read so far
    and [n] the number of digits. [None]: two underscores in a row, or an
    underscore at the end. Otherwise the value, the number of digits and
    the text left. *)
Fixpoint scan_digits (prev : bool) (acc : Z) (n : nat) (s : string)
  : option (Z * nat * string) :=
  match s with
  | String c r =>
      if is_ascii_digit c then scan_digits false (10 * acc + digit_value c) (S n) r
      else if Ascii.eqb c "_" then
        if prev then None else scan_digits true acc n r
      else if prev then None else Some (acc, n, s)
  | EmptyString => if prev then None else Some (acc, n, s)
  end.

(** The guard on the length of a decimal literal: with a limit
    [max_str_digits] > 0 (CPython's default is 4300, 0 turns the guard
    off), a literal of more digits than the limit is a [ValueError]. The
    guard is only looked at above 640 digits, the least limit that can be
    set. *)
Definition exceeds_limit (max_str_digits n : nat) : bool :=
  (640 <? n)%nat && (0 <? max_str_digits)%nat && (max_str_digits <? n)%nat.

(** [int(s)]; [None] stands for [ValueError]. *)
Definition int (max_str_digits : nat) (s : string) : option Z :=
  let s := skip_spaces s in
  let '(negative, s) :=
    match s with
    | String "+" r => (false, r)
    | String "-" r => (true, r)
    | _ => (false, s)
    end in
  match s with
  | String "_" _ => None
  | _ =>
      match scan_digits false 0 0 s with
      | Some (v, n, rest) =>
          if (n =? 0)%nat then None
          else if nonempty (skip_spaces rest) then None
          else if exceeds_limit max_str_digits n then None
          else Some (if negative then - v else v)
      | None => None
      end
  end.

End Py.

(** ** Exceptions, the network and the [IO] monad *)

(** The exceptions the module can meet. [HTTPError] carries
    [e.response.status_code]; [RequestException] stands for every other
    [requests.exceptions.RequestException] (no connection, timeout, ...),
    [OtherException] for an exception of any other class. *)
Inductive exn : Type :=
| HTTPError (status_code : Z)
| RequestException
| IndexError
| ValueError
| TypeError
| OtherException.

(** What one outbound GET comes to. *)
Inductive outcome : Type :=
| Responded (status_code : Z) (text : string)
| RequestFailed
| Crashed.

(** The world a request runs in: what the upstream site does for each URL,
    and the URLs requested so far. *)
Record World : Type := {
  upstream : string -> outcome;
  outbound : list string
}.

(** The world after a GET of [url] went out. *)
Definition requested (url : string) (w : World) : World :=
  {| upstream := upstream w; outbound := outbound w ++ [url] |}.

(** A computation that may raise and may use the network. The world
    changes made before an exception stay. *)
Definition IO (A : Type) : Type := World -> (exn + A) * World.

#[global] Instance exn_bind : MBind (sum exn) := fun A B k m =>
  match m with
  | inr a => k a
  | inl e => inl e
  end.

#[global] Instance io_bind : MBind IO := fun A B k m w =>
  match m w with
  | (inr a, w') => k a w'
  | (inl e, w') => (inl e, w')
  end.

(** A step that does not touch the world. *)
Definition lift {A : Type} (r : exn + A) : IO A := fun w => (r, w).

(** [l[i]] on a list: [IndexError] out of range. *)
Definition index {A : Type} (l : list A) (i : nat) : exn + A :=
  match l !! i with
  | Some x => inr x
  | None => inl IndexError
  end.

(** ** The libraries the module calls *)

Module requests.

(** A [requests.Response], as far as the module reads it. *)
Record Response : Type := {
  status_code : Z;
  text : string
}.

(** [requests.get(url, timeout=10)]: the request goes out, and the call
    returns the response or raises. A timeout is one of the failures. *)
Definition get (url : string) : IO Response := fun w =>
  let w' := requested url w in
  match upstream w url with
  | Responded status body => (inr {| status_code := status; text := body |}, w')
  | RequestFailed => (inl RequestException, w')
  | Crashed => (inl OtherException, w')
  end.

(** [response.raise_for_status()]: [HTTPError] for a 4xx or 5xx status. *)
Definition raise_for_status (response : Response) : exn + unit :=
  if (400 <=? status_code response) && (status_code response <? 600)
  then inl (HTTPError (status_code response))
  else inr tt.

End requests.

Module flask.

(** A Flask response: body, headers and status. *)
Record Response : Type := {
  data : string;
  headers : gmap string string;
  status_code : Z
}.

(** [make_response(body)]: status 200 and the default content type. *)
Definition make_response (body : string) : Response :=
  {| data := body;
     headers := {[ "Content-Type" := "text/html; charset=utf-8" ]};
     status_code := 200 |}.

(** [response.headers[name] = value] *)
Definition set_header (name value : string) (r : Response) : Response :=
  {| data := data r; headers := <[ name := value ]> (headers r); status_code := status_code r |}.

(** [response.status_code = code] *)
Definition set_status_code (code : Z) (r : Response) : Response :=
  {| data := data r; headers := headers r; status_code := code |}.

End flask.

(** ** api/euler-stats.py *)

(** The [stats] dictionary. *)
Record Stats : Type := {
  username : string;
  solved_count : Z;
  level : Z
}.

(** The keyword arguments [card_template.svg] is rendered with. *)
Inductive context : Type :=
| ErrorCard (error : string)
| StatsCard (stats : Stats).

(** The local variables [solved_count] and [level] of [get_euler_stats]. *)
Record locals : Type := {
  solved_count_var : option Z;
  level_var : option Z
}.

Definition newline : ascii := "010"%char.

Section Endpoint.

(** The interpreter's limit on the digits of a decimal literal
    ([sys.get_int_max_str_digits()]). *)
Variable max_str_digits : nat.

(** [templates/card_template.svg], as the function [template.render] is;
    the template is taken to load and to render. *)
Variable card_template : context -> string.

(** [int(s)] as an operation that raises. *)
Definition int (s : string) : exn + Z :=
  match Py.int max_str_digits s with
  | Some n => inr n
  | None => inl ValueError
  end.

(** The loop over [parts[1:]] (lines 42-44): [potential_numbers] grows by
    [int(part)] for every part with [part.isdigit()]. *)
Fixpoint collect_numbers (fields : list string) (potential_numbers : list Z)
  : exn + list Z :=
  match fields with
  | part :: rest =>
      if Py.isdigit part then
        n ← int part;
        collect_numbers rest (potential_numbers ++ [n])
      else collect_numbers rest potential_numbers
  | [] => inr potential_numbers
  end.

(** The body of the inner [try] (lines 41-56), from the locals of line
    36-37 to the locals at its end. *)
Definition parse_numbers (parts : list string) : exn + locals :=
  let vars := {| solved_count_var := None; level_var := None |} in
  potential_numbers ← collect_numbers (drop 1 parts) [];
  if (2 <=? length potential_numbers)%nat then
    n0 ← index potential_numbers 0;
    let vars := {| solved_count_var := Some n0; level_var := level_var vars |} in
    n1 ← index potential_numbers 1;
    let vars := {| solved_count_var := solved_count_var vars; level_var := Some n1 |} in
    inr vars
  else
    p3 ← index parts 3;
    n3 ← int p3;
    let vars := {| solved_count_var := Some n3; level_var := level_var vars |} in
    p4 ← index parts 4;
    n4 ← int p4;
    let vars := {| solved_count_var := solved_count_var vars; level_var := Some n4 |} in
    inr vars.

(** The URL of line 19. *)
Definition profile_url (username : string) : string :=
  "https://projecteuler.net/profile/" +:+ username +:+ ".txt".

(** Lines 24-74: from the text of a good response to the returned pair. *)
Definition parse_profile (username text : string)
  : exn + (option Stats * option string) :=
  let content := Py.strip text in
  let lines := Py.split newline content in
  if bool_decide (lines = []) then inr (None, Some "No data found in profile file")
  else
    main_stats_line ← index lines 0;
    let parts := map Py.strip (Py.split "," main_stats_line) in
    match parse_numbers parts with
    | inl IndexError | inl ValueError => inr (None, Some "Could not parse stats")
    | inl e => inl e
    | inr vars =>
        match solved_count_var vars, level_var vars with
        | Some solved_count, Some level =>
            let stats := {| username := username;
                            solved_count := solved_count;
                            level := level |} in
            inr (Some stats, None)
        | _, _ => inr (None, Some "Could not find stats")
        end
    end.

(** [get_euler_stats(username)]: the pair [(stats, error_message)]. *)
Definition get_euler_stats (username : string)
  : World -> (option Stats * option string) * World :=
  fun w =>
    let url := profile_url username in
    let body : IO (option Stats * option string) :=
      response ← requests.get url;
      _ ← lift (requests.raise_for_status response);
      lift (parse_profile username (requests.text response)) in
    match body w with
    | (inr result, w') => (result, w')
    | (inl (HTTPError status), w') =>
        if status =? 404
        then ((None, Some ("User '" +:+ username +:+ "' not found")), w')
        else ((None, Some "Project Euler request failed"), w')
    | (inl RequestException, w') =>
        ((None, Some "Could not connect to Project Euler"), w')
    | (inl _, w') => ((None, Some "An internal error occurred"), w')
    end.

(** Truth value of [request.args.get('username')] and of [error_message]. *)
Definition truthy (v : option string) : bool :=
  match v with
  | Some s => Py.nonempty s
  | None => false
  end.

Definition cache_control : string :=
  "public, max-age=3600, s-maxage=3600, stale-while-revalidate=1800".

(** [handle_request(path)], from [request.args.get('username')]. Past the
    guard of line 100 [username] is a non-empty [str]; rendering with the
    keywords of [stats] when [stats] is [None] is a [TypeError]. *)
Definition handle_request (arg : option string) : IO flask.Response :=
  fun w =>
    if negb (truthy arg) then
      let svg_content := card_template (ErrorCard "Username required (?username=...)") in
      let response := flask.make_response svg_content in
      let response := flask.set_header "Content-Type" "image/svg+xml" response in
      let response := flask.set_status_code 400 response in
      (inr response, w)
    else
      let username := default "" arg in
      let '((stats, error_message), w') := get_euler_stats username w in
      let rendered : exn + (string * Z) :=
        if truthy error_message then
          let message := default "" error_message in
          inr (card_template (ErrorCard message),
               if Py.contains "not found" (Py.lower message) then 404 else 500)
        else
          match stats with
          | Some stats => inr (card_template (StatsCard stats), 200)
          | None => inl TypeError
          end in
      match rendered with
      | inr (svg_content, status_code) =>
          let response := flask.make_response svg_content in
          let response := flask.set_header "Content-Type" "image/svg+xml" response in
          let response := flask.set_header "Cache-Control" cache_control response in
          let response := flask.set_status_code status_code response in
          (inr response, w')
      | inl e => (inl e, w')
      end.

End Endpoint.

(** ** Vocabulary of the specification *)

(** The comma-separated fields of the first line of a payload, each
    stripped: [parts] of line 33. *)
Definition fields (text : string) : list string :=
  map Py.strip (Py.split "," (Py.split_fields newline (Py.strip text)).1).

(** A field made of the decimal digits 0-9 only, and short enough for
    [int] under the limit [max_str_digits]. *)
Definition plain_decimal (max_str_digits : nat) (p : string) : bool :=
  Py.nonempty p && Py.all_chars Py.is_ascii_digit p
  && negb (Py.exceeds_limit max_str_digits (String.length p)).

(** The number a string of decimal digits denotes, by position. *)
Fixpoint decimal_value (p : string) : Z :=
  match p with
  | String c r => Py.digit_value c * 10 ^ Z.of_nat (String.length r) + decimal_value r
  | EmptyString => 0
  end.

(** The error reasons of the specification (its FetchOutcome and error
    taxonomy). *)
Inductive ErrorReason : Type :=
| NotFound
| ParseFailure
| UpstreamUnreachable
| InternalError.

(** The reason the specification gives for each error message of
    [get_euler_stats username]. *)
Definition error_reason (username message : string) : option ErrorReason :=
  if String.eqb message "No data found in profile file" then Some ParseFailure
  else if String.eqb message "Could not parse stats" then Some ParseFailure
  else if String.eqb message "Could not find stats" then Some ParseFailure
  else if String.eqb message "Could not connect to Project Euler" then Some UpstreamUnreachable
  else if String.eqb message "Project Euler request failed" then Some InternalError
  else if String.eqb message "An internal error occurred" then Some InternalError
  else if String.eqb message ("User '" +:+ username +:+ "' not found") then Some NotFound
  else None.

(** The status the specification's mapping gives a request, from the
    username argument, the answer of the upstream and the pair the fetch
    returns: 400 without a username (an empty one counts as missing, as
    for the guard of line 100); otherwise the answer of the upstream is
    looked at first: 404 when it answered 404, 500 when it answered
    another 4xx or 5xx or did not answer; and for any other answer 200
    when the fetch returns stats and 500 when it does not (a parse
    failure). *)
Definition expected_status (arg : option string) (fetched : option Stats * option string)
    (answer : outcome) : Z :=
  if negb (truthy arg) then 400
  else
    match answer with
    | Responded st _ =>
        if st =? 404 then 404
        else if (400 <=? st) && (st <? 600) then 500
        else
          match fetched with
          | (Some _, _) => 200
          | (None, _) => 500
          end
    | RequestFailed => 500
    | Crashed => 500
    end.

(** ** Sample deployments *)

(** A world whose upstream gives the same answer for every URL, before any
    request went out. *)
Definition serving (answer : outcome) : World :=
  {| upstream := fun _ => answer; outbound := [] |}.

(** A template that shows the message or the numbers. *)
Definition plain_template (c : context) : string :=
  match c with
  | ErrorCard error => "error: " +:+ error
  | StatsCard stats => "stats of " +:+ username stats
  end.

(** The superscript two, U+00B2: [isdigit] takes it, [int] does not. *)
Definition superscript_two : string := String "178" EmptyString.

(** The payload of the specification's first example. *)
Definition alice_payload : string :=
  "alice,GB,Python,1234,5,2020-01-01,2024-01-01".

(** The payload of the specification's fallback example. *)
Definition bob_payload : string := "bob,US,,99,,x,y".

(** Two decimal fields after a field that is a superscript two. *)
Definition superscript_payload : string :=
  "bob," +:+ superscript_two +:+ ",12,3".

(** Signed numbers at the fixed positions, after a superscript two. *)
Definition superscript_signed_payload : string :=
  "bob," +:+ superscript_two +:+ ",x,+5,+6".

(** A field of [n] nines. *)
Fixpoint nines (n : nat) : string :=
  match n with
  | S k => String "9" (nines k)
  | O => EmptyString
  end.

(** Two decimal fields, the first of 4301 digits. *)
Definition long_payload : string := "bob," +:+ nines 4301 +:+ ",3".

(** A signed number at the position of the solved count. *)
Definition negative_payload : string := "bob,US,EN,-5,7".

(** The error messages [get_euler_stats] returns besides the one for an
    unknown user. *)
Definition failure_messages : list string :=
  [ "Could not parse stats";
    "Project Euler request failed";
    "Could not connect to Project Euler";
    "An internal error occurred" ].

(** ** Vocabulary of the further properties *)

(** A string of white space only, as [strip] sees white space. *)
Definition blank (s : string) : bool := Py.all_chars Py.isspace s.

(** A string that holds no line break. *)
Definition one_line (s : string) : bool :=
  Py.all_chars (fun c => negb (Ascii.eqb c newline)) s.

(** [g] applied to the last element of a list, the others kept. *)
Fixpoint map_last {A : Type} (g : A -> A) (l : list A) : list A :=
  match l with
  | [] => []
  | [x] => [g x]
  | x :: rest => x :: map_last g rest
  end.

(** A first line of three fields. *)
Definition short_payload : string := "bob,US,99".

(** The first example under another name in its first field. *)
Definition renamed_payload : string :=
  "someone else,GB,Python,1234,5,2020-01-01,2024-01-01".

(** The first example between blank lines. *)
Definition padded_payload : string :=
  String newline " " +:+ alice_payload +:+ String " " (String newline EmptyString).

(** The first example followed by a second line. *)
Definition two_line_payload : string :=
  alice_payload +:+ String newline "1,2,3,5,8".

(** ** Properties of the built-ins *)

#[local] Arguments Nat.leb : simpl never.
#[local] Arguments Z.leb : simpl never.
#[local] Arguments Z.ltb : simpl never.
#[local] Arguments Z.eqb : simpl never.

Ltac exn_simpl :=
  unfold mbind, exn_bind, io_bind, lift in *; simpl in *.

(** Settles, field by field, a hypothesis [Hp] that [p] is one of a list
    of literal fields, given [Hd : Py.isdigit p = true]. *)
Ltac decide_fields Hp Hd :=
  repeat (apply elem_of_cons in Hp as [-> | Hp];
          [first [vm_compute in Hd; discriminate Hd | vm_compute; reflexivity]|]);
  by apply elem_of_nil in Hp.

Ltac by_cases_on_char c :=
  destruct c as [[] [] [] [] [] [] [] []]; try discriminate; try reflexivity.

Lemma split_is_cons (sep : ascii) (s : string) :
  Py.split sep s = (Py.split_fields sep s).1 :: (Py.split_fields sep s).2.
Proof. unfold Py.split. by destruct (Py.split_fields sep s). Qed.

Lemma digit_is_no_space (c : ascii) :
  Py.is_ascii_digit c = true -> Py.int_space c = false.
Proof. by_cases_on_char c. Qed.

Lemma digit_is_no_underscore (c : ascii) :
  Py.is_ascii_digit c = true -> Ascii.eqb c "_" = false.
Proof. by_cases_on_char c. Qed.

Lemma ascii_digit_isdigit (c : ascii) :
  Py.is_ascii_digit c = true -> Py.isdigit_char c = true.
Proof. unfold Py.isdigit_char. by intros ->. Qed.

Lemma digit_value_bounds (c : ascii) :
  Py.is_ascii_digit c = true -> 0 <= Py.digit_value c <= 9.
Proof.
  unfold Py.is_ascii_digit, Py.between, Py.digit_value.
  rewrite andb_true_iff, !N.leb_le. lia.
Qed.

Lemma decimal_value_nonneg (p : string) :
  Py.all_chars Py.is_ascii_digit p = true -> 0 <= decimal_value p.
Proof.
  induction p as [|c r IH]; simpl; [lia|].
  rewrite andb_true_iff. intros [Hc Hr].
  pose proof (digit_value_bounds c Hc).
  specialize (IH Hr).
  assert (0 <= 10 ^ Z.of_nat (String.length r)) by (apply Z.pow_nonneg; lia).
  nia.
Qed.

(** The digit loop on a string of decimal digits reads all of it. *)
Lemma scan_digits_decimal (s : string) (acc : Z) (n : nat) :
  Py.all_chars Py.is_ascii_digit s = true ->
  Py.scan_digits false acc n s =
    Some (acc * 10 ^ Z.of_nat (String.length s) + decimal_value s,
          (n + String.length s)%nat, EmptyString).
Proof.
  revert acc n. induction s as [|c r IH]; intros acc n; simpl.
  - intros _. do 3 f_equal; [lia|lia].
  - rewrite andb_true_iff. intros [Hc Hr]. rewrite Hc, (IH _ _ Hr).
    do 3 f_equal; [|lia].
    rewrite Nat2Z.inj_succ, Z.pow_succ_r by lia. ring.
Qed.

(** [int] on a string of decimal digits within the limit. *)
Lemma int_plain_decimal (max : nat) (p : string) :
  plain_decimal max p = true -> Py.int max p = Some (decimal_value p).
Proof.
  unfold plain_decimal. rewrite !andb_true_iff, negb_true_iff.
  intros [[Hne Hall] Hlim]. destruct p as [|c r]; [discriminate|].
  pose proof Hall as Hall'. simpl in Hall'. apply andb_true_iff in Hall' as [Hc Hr].
  unfold Py.int. cbn [Py.skip_spaces]. rewrite (digit_is_no_space c Hc).
  assert (Hsign : (match String c r with
                   | String "+" r' => (false, r')
                   | String "-" r' => (true, r')
                   | _ => (false, String c r)
                   end) = (false, String c r)).
  { clear -Hc. by_cases_on_char c. }
  rewrite Hsign.
  assert (Hus : forall A (x y : A),
             match String c r with String "_" _ => x | _ => y end = y).
  { intros A x y. clear -Hc. by_cases_on_char c. }
  rewrite Hus, (scan_digits_decimal _ 0 0%nat Hall).
  cbn [Py.skip_spaces Py.nonempty String.length Nat.add Nat.eqb] in *.
  by rewrite Hlim.
Qed.

Lemma isdigit_char_is_no_space (c : ascii) :
  Py.isdigit_char c = true -> Py.int_space c = false.
Proof. by_cases_on_char c. Qed.

(** The digit loop never makes the value negative. *)
Lemma scan_digits_nonneg (s : string) (prev : bool) (acc : Z) (n : nat)
    (v : Z) (k : nat) (rest : string) :
  0 <= acc -> Py.scan_digits prev acc n s = Some (v, k, rest) -> 0 <= v.
Proof.
  revert prev acc n. induction s as [|c r IH]; intros prev acc n Hacc; simpl.
  - destruct prev; [discriminate|]. by intros [= <- _ _].
  - destruct (Py.is_ascii_digit c) eqn:Hc.
    + apply IH. pose proof (digit_value_bounds c Hc). lia.
    + destruct (Ascii.eqb c "_").
      * destruct prev; [discriminate|]. by apply IH.
      * destruct prev; [discriminate|]. by intros [= <- _ _].
Qed.

(** [int] of a field that [isdigit] accepts is never negative. *)
Lemma int_isdigit_nonneg (max : nat) (p : string) (n : Z) :
  Py.isdigit p = true -> Py.int max p = Some n -> 0 <= n.
Proof.
  unfold Py.isdigit. destruct p as [|c r]; [discriminate|]. simpl.
  rewrite andb_true_iff. intros [Hc _].
  unfold Py.int. cbn [Py.skip_spaces]. rewrite (isdigit_char_is_no_space c Hc).
  assert (Hsign : (match String c r with
                   | String "+" r' => (false, r')
                   | String "-" r' => (true, r')
                   | _ => (false, String c r)
                   end) = (false, String c r)).
  { clear -Hc. by_cases_on_char c. }
  rewrite Hsign.
  destruct (match String c r with String "_" _ => true | _ => false end) eqn:Hus.
  { clear -Hc Hus. exfalso. revert Hus. by_cases_on_char c. }
  assert (Hstep : forall A (x y : A),
             match String c r with String "_" _ => x | _ => y end = y).
  { intros A x y. clear -Hus. revert Hus. by_cases_on_char c. }
  rewrite Hstep.
  destruct (Py.scan_digits false 0 0 (String c r)) as [[[v k] rest]|] eqn:Hscan;
    [|discriminate].
  destruct (k =? 0)%nat; [discriminate|].
  destruct (Py.nonempty _); [discriminate|].
  destruct (Py.exceeds_limit max k); [discriminate|].
  intros [= <-]. by apply (scan_digits_nonneg _ _ _ _ _ _ _ (Z.le_refl 0) Hscan).
Qed.

Lemma lower_app (a b : string) : Py.lower (a +:+ b) = Py.lower a +:+ Py.lower b.
Proof. induction a as [|c r IH]; simpl; [done|]. by rewrite IH. Qed.

Lemma contains_app_r (needle a b : string) :
  Py.contains needle b = true -> Py.contains needle (a +:+ b) = true.
Proof.
  intros Hb. induction a as [|c r IH]; simpl; [done|].
  rewrite IH. apply orb_true_r.
Qed.

(** The message for an unknown user holds the words the handler looks for,
    whatever the username. *)
Lemma user_not_found_message (u : string) :
  Py.contains "not found" (Py.lower ("User '" +:+ u +:+ "' not found")) = true.
Proof.
  rewrite !lower_app. apply contains_app_r, contains_app_r. reflexivity.
Qed.

(** ** White space and lines *)

#[local] Arguments String.append : simpl nomatch.

Lemma newline_is_space : Py.isspace newline = true.
Proof. reflexivity. Qed.

Lemma comma_is_no_space : Py.isspace "," = false.
Proof. reflexivity. Qed.

Lemma blank_app (a b : string) : blank (a +:+ b) = blank a && blank b.
Proof.
  unfold blank. induction a as [|c r IH]; simpl; [done|].
  by rewrite IH, andb_assoc.
Qed.

Lemma lstrip_blank (s : string) : blank s = true -> Py.lstrip s = EmptyString.
Proof.
  unfold blank. induction s as [|c r IH]; simpl; [done|].
  rewrite andb_true_iff. intros [-> Hr]. by apply IH.
Qed.

Lemma rstrip_blank (s : string) : blank s = true -> Py.rstrip s = EmptyString.
Proof.
  unfold blank. induction s as [|c r IH]; simpl; [done|].
  rewrite andb_true_iff. intros [-> Hr]. by rewrite (IH Hr).
Qed.

Lemma rstrip_empty_blank (s : string) : Py.rstrip s = EmptyString -> blank s = true.
Proof.
  unfold blank. induction s as [|c r IH]; simpl; [done|].
  destruct (Py.rstrip r) eqn:Hr; [|discriminate].
  destruct (Py.isspace c); [|discriminate]. intros _. by apply IH.
Qed.

(** Leading white space goes. *)
Lemma lstrip_app_blank (ws s : string) :
  blank ws = true -> Py.lstrip (ws +:+ s) = Py.lstrip s.
Proof.
  unfold blank. induction ws as [|c r IH]; simpl; [done|].
  rewrite andb_true_iff. intros [-> Hr]. by apply IH.
Qed.

(** [lstrip] stops in a string that is not blank. *)
Lemma lstrip_app_not_blank (l x : string) :
  blank l = false -> Py.lstrip (l +:+ x) = Py.lstrip l +:+ x.
Proof.
  unfold blank. induction l as [|c r IH]; simpl; [discriminate|].
  destruct (Py.isspace c); simpl; [apply IH|done].
Qed.

Lemma lstrip_not_blank (l : string) : blank l = false -> blank (Py.lstrip l) = false.
Proof.
  unfold blank. induction l as [|c r IH]; simpl; [done|].
  destruct (Py.isspace c) eqn:Hc; simpl; [apply IH|]. by rewrite Hc.
Qed.

Lemma lstrip_one_line (l : string) : one_line l = true -> one_line (Py.lstrip l) = true.
Proof.
  unfold one_line. induction l as [|c r IH]; simpl; [done|].
  rewrite andb_true_iff. intros [Hc Hr].
  destruct (Py.isspace c); [by apply IH|]. simpl. by rewrite Hc.
Qed.

(** Trailing white space goes, and [rstrip] does not reach past text that
    is not blank. *)
Lemma rstrip_app (a b : string) :
  Py.rstrip (a +:+ b) = if blank b then Py.rstrip a else a +:+ Py.rstrip b.
Proof.
  induction a as [|c r IH]; simpl.
  - destruct (blank b) eqn:Hb; [by apply rstrip_blank|done].
  - rewrite IH. destruct (blank b) eqn:Hb; [done|].
    change (String c r +:+ Py.rstrip b) with (String c (r +:+ Py.rstrip b)).
    destruct (r +:+ Py.rstrip b) eqn:Hrb; [|done].
    destruct r; [|discriminate]. simpl in Hrb.
    apply rstrip_empty_blank in Hrb. congruence.
Qed.

(** A string is its [rstrip] followed by white space. *)
Lemma rstrip_decompose (s : string) :
  exists ws, blank ws = true /\ s = Py.rstrip s +:+ ws.
Proof.
  induction s as [|c r (ws & Hws & Hr)]; simpl.
  - by exists EmptyString.
  - destruct (Py.rstrip r) eqn:Hrs.
    + simpl in Hr. subst r. destruct (Py.isspace c) eqn:Hc.
      * exists (String c ws). split; [|done]. unfold blank. simpl. by rewrite Hc.
      * by exists ws.
    + exists ws. split; [done|]. by rewrite Hr at 1.
Qed.

Lemma rstrip_one_line (s : string) : one_line s = true -> one_line (Py.rstrip s) = true.
Proof.
  intros Hs. destruct (rstrip_decompose s) as (ws & _ & Heq).
  rewrite Heq in Hs. unfold one_line in *.
  revert Hs. generalize (Py.rstrip s). intros a.
  induction a as [|c r IH]; simpl; [done|].
  rewrite !andb_true_iff. intros [Hc Hr]. by split; [|apply IH].
Qed.

(** Padding with white space does not change [strip]. *)
Lemma strip_app_blank (s ws : string) :
  blank ws = true -> Py.strip (s +:+ ws) = Py.strip s.
Proof.
  intros Hws. unfold Py.strip. induction s as [|c r IH]; simpl.
  - by rewrite (lstrip_blank ws Hws).
  - destruct (Py.isspace c); [done|].
    change (String c (r +:+ ws)) with (String c r +:+ ws).
    by rewrite rstrip_app, Hws.
Qed.

Lemma strip_padded (ws s ws' : string) :
  blank ws = true -> blank ws' = true ->
  Py.strip (ws +:+ s +:+ ws') = Py.strip s.
Proof.
  intros Hws Hws'. unfold Py.strip at 1. rewrite lstrip_app_blank by done.
  by apply strip_app_blank.
Qed.

(** *** Splitting *)

Lemma split_cons_eq (sep c : ascii) (t : string) :
  Py.split sep (String c t) =
    if Ascii.eqb c sep then EmptyString :: Py.split sep t
    else match Py.split sep t with
         | f :: fs => String c f :: fs
         | [] => []
         end.
Proof.
  unfold Py.split. simpl. destruct (Py.split_fields sep t) as [f fs].
  by destruct (Ascii.eqb c sep).
Qed.

(** White space after the text ends up in the last field. *)
Lemma split_app_blank (sep : ascii) (x ws : string) :
  Py.isspace sep = false -> blank ws = true ->
  Py.split sep (x +:+ ws) = map_last (fun f => f +:+ ws) (Py.split sep x).
Proof.
  intros Hsep Hws. induction x as [|c t IH].
  - simpl. clear -Hsep Hws. unfold blank in Hws.
    induction ws as [|c r IH]; [done|].
    simpl in Hws. apply andb_true_iff in Hws as [Hc Hr].
    rewrite split_cons_eq, (IH Hr).
    destruct (Ascii.eqb c sep) eqn:Heq; [|done].
    apply Ascii.eqb_eq in Heq. congruence.
  - change (String c t +:+ ws) with (String c (t +:+ ws)).
    rewrite !split_cons_eq, IH. rewrite (split_is_cons sep t).
    destruct (Ascii.eqb c sep); [done|].
    by destruct ((Py.split_fields sep t).2).
Qed.

Lemma map_strip_map_last (ws : string) (l : list string) :
  blank ws = true ->
  map Py.strip (map_last (fun f => f +:+ ws) l) = map Py.strip l.
Proof.
  intros Hws. induction l as [|x [|y rest] IH]; [done| |].
  - simpl. by rewrite strip_app_blank.
  - change (map_last (fun f => f +:+ ws) (x :: y :: rest))
      with (x :: map_last (fun f => f +:+ ws) (y :: rest)).
    rewrite !(map_cons Py.strip x). by rewrite IH.
Qed.

(** The stripped fields do not see trailing white space. *)
Lemma stripped_fields_rstrip (sep : ascii) (s : string) :
  Py.isspace sep = false ->
  map Py.strip (Py.split sep (Py.rstrip s)) = map Py.strip (Py.split sep s).
Proof.
  intros Hsep. destruct (rstrip_decompose s) as (ws & Hws & Heq).
  rewrite Heq at 2. by rewrite split_app_blank, map_strip_map_last.
Qed.

(** The first line of a text whose first line is [a]. *)
Lemma first_line_app (a r : string) :
  one_line a = true ->
  (Py.split_fields newline (a +:+ String newline r)).1 = a.
Proof.
  unfold one_line. induction a as [|c t IH]; simpl.
  - by destruct (Py.split_fields newline r).
  - rewrite andb_true_iff, negb_true_iff. intros [Hc Ht]. specialize (IH Ht).
    destruct (Py.split_fields newline (t +:+ String newline r)) as [f fs].
    rewrite Hc. simpl in *. by rewrite IH.
Qed.

Lemma first_line_one_line (a : string) :
  one_line a = true -> (Py.split_fields newline a).1 = a.
Proof.
  unfold one_line. induction a as [|c t IH]; simpl; [done|].
  rewrite andb_true_iff, negb_true_iff. intros [Hc Ht]. specialize (IH Ht).
  destruct (Py.split_fields newline t) as [f fs].
  rewrite Hc. simpl in *. by rewrite IH.
Qed.

(** Only the first line of a body counts, when that line is not blank. *)
Lemma fields_first_line (l r : string) :
  one_line l = true -> blank l = false ->
  fields (l +:+ String newline r) = fields l.
Proof.
  intros Hone Hnb. unfold fields, Py.strip.
  rewrite (lstrip_app_not_blank l _ Hnb).
  pose proof (lstrip_one_line l Hone) as Hone'.
  rewrite (first_line_one_line (Py.rstrip (Py.lstrip l))) by by apply rstrip_one_line.
  rewrite stripped_fields_rstrip by done.
  rewrite rstrip_app.
  destruct (blank (String newline r)) eqn:Hb.
  - rewrite (first_line_one_line (Py.rstrip (Py.lstrip l))) by by apply rstrip_one_line.
    by rewrite stripped_fields_rstrip.
  - assert (Hr : exists x, Py.rstrip (String newline r) = String newline x).
    { simpl. destruct (Py.rstrip r) eqn:Hrr; [|eauto].
      apply rstrip_empty_blank in Hrr. unfold blank in *. simpl in Hb.
      rewrite Hrr in Hb. discriminate. }
    destruct Hr as [x ->]. by rewrite first_line_app.
Qed.

#[local] Arguments String.append : simpl never.

(** ** Properties of the parser *)

Section Parser.

Variable max : nat.

Lemma int_raises (s : string) (e : exn) : int max s = inl e -> e = ValueError.
Proof. unfold int. destruct (Py.int max s); congruence. Qed.

Lemma index_raises {A : Type} (l : list A) (i : nat) (e : exn) :
  index l i = inl e -> e = IndexError.
Proof. unfold index. destruct (l !! i); congruence. Qed.

(** The loop raises nothing but the [ValueError] of [int]. *)
Lemma collect_numbers_raises (fs : list string) (acc : list Z) (e : exn) :
  collect_numbers max fs acc = inl e -> e = ValueError.
Proof.
  revert acc. induction fs as [|p fs IH]; intros acc; simpl; [discriminate|].
  destruct (Py.isdigit p); [|apply IH].
  destruct (int max p) as [e'|n] eqn:Hp; exn_simpl.
  - intros [= <-]. by apply int_raises in Hp.
  - apply IH.
Qed.

(** The loop appends the values of the digit fields, in their order, when
    [int] takes each of them. *)
Lemma collect_numbers_plain (fs : list string) (acc : list Z) :
  (forall p, p ∈ fs -> Py.isdigit p = true -> plain_decimal max p = true) ->
  collect_numbers max fs acc =
    inr (acc ++ map decimal_value (List.filter Py.isdigit fs))%list.
Proof.
  revert acc. induction fs as [|p fs IH]; intros acc Hplain; simpl.
  - by rewrite app_nil_r.
  - assert (Hrest : forall q, q ∈ fs -> Py.isdigit q = true -> plain_decimal max q = true).
    { intros q Hq. apply Hplain. by right. }
    destruct (Py.isdigit p) eqn:Hd.
    + unfold int. rewrite (int_plain_decimal max p) by (apply Hplain; [left|done]).
      exn_simpl. rewrite (IH _ Hrest). by rewrite <- app_assoc.
    + by apply IH.
Qed.

(** What the loop appends is never negative, and it appends one number
    for each field that [isdigit] accepts. *)
Lemma collect_numbers_inv (fs : list string) (acc nums : list Z) :
  collect_numbers max fs acc = inr nums ->
  Forall (fun n => 0 <= n) acc ->
  Forall (fun n => 0 <= n) nums
  /\ length nums = (length acc + length (List.filter Py.isdigit fs))%nat.
Proof.
  revert acc. induction fs as [|p fs IH]; intros acc; simpl.
  - intros [= <-] Hacc. split; [done|lia].
  - destruct (Py.isdigit p) eqn:Hd; [|apply IH].
    unfold int. destruct (Py.int max p) as [n|] eqn:Hn; exn_simpl; [|discriminate].
    intros Hc Hacc.
    destruct (IH _ Hc) as [Hall Hlen].
    { apply Forall_app. split; [done|]. apply Forall_singleton.
      by apply (int_isdigit_nonneg max p). }
    split; [done|]. rewrite Hlen, length_app. simpl. lia.
Qed.

(** The inner [try] raises nothing but what its [except] clause names. *)
Lemma parse_numbers_raises (parts : list string) (e : exn) :
  parse_numbers max parts = inl e -> e = IndexError \/ e = ValueError.
Proof.
  unfold parse_numbers.
  destruct (collect_numbers max (drop 1 parts) []) as [e'|nums] eqn:Hc; exn_simpl.
  { intros [= <-]. right. by apply collect_numbers_raises in Hc. }
  destruct (2 <=? length nums)%nat.
  - destruct (index nums 0) as [e0|n0] eqn:H0; simpl.
    { intros [= <-]. left. by apply index_raises in H0. }
    destruct (index nums 1) as [e1|n1] eqn:H1; simpl; [|discriminate].
    intros [= <-]. left. by apply index_raises in H1.
  - destruct (index parts 3) as [e3|p3] eqn:H3; simpl.
    { intros [= <-]. left. by apply index_raises in H3. }
    destruct (int max p3) as [e3|n3] eqn:Hn3; simpl.
    { intros [= <-]. right. by apply int_raises in Hn3. }
    destruct (index parts 4) as [e4|p4] eqn:H4; simpl.
    { intros [= <-]. left. by apply index_raises in H4. }
    destruct (int max p4) as [e4|n4] eqn:Hn4; simpl; [|discriminate].
    intros [= <-]. right. by apply int_raises in Hn4.
Qed.

(** When the inner [try] ends without raising, both locals are set. *)
Lemma parse_numbers_assigns (parts : list string) (vars : locals) :
  parse_numbers max parts = inr vars ->
  is_Some (solved_count_var vars) /\ is_Some (level_var vars).
Proof.
  unfold parse_numbers.
  destruct (collect_numbers max (drop 1 parts) []) as [e'|nums]; exn_simpl; [discriminate|].
  destruct (2 <=? length nums)%nat.
  - destruct (index nums 0); simpl; [discriminate|].
    destruct (index nums 1); simpl; [discriminate|].
    intros [= <-]. simpl. eauto.
  - destruct (index parts 3); simpl; [discriminate|].
    destruct (int max _); simpl; [discriminate|].
    destruct (index parts 4); simpl; [discriminate|].
    destruct (int max _); simpl; [discriminate|].
    intros [= <-]. simpl. eauto.
Qed.

(** Lines 24-74 never raise: the split of a string has a first line, and
    the inner [try] catches what its body raises. *)
Lemma parse_profile_eq (u text : string) :
  parse_profile max u text =
    inr match parse_numbers max (fields text) with
        | inl _ => (None, Some "Could not parse stats")
        | inr vars =>
            match solved_count_var vars, level_var vars with
            | Some sc, Some lv =>
                (Some {| username := u; solved_count := sc; level := lv |}, None)
            | _, _ => (None, Some "Could not find stats")
            end
        end.
Proof.
  unfold parse_profile, fields.
  rewrite (split_is_cons newline). simpl.
  destruct (parse_numbers max _) as [e|vars] eqn:Hp.
  - by destruct (parse_numbers_raises _ _ Hp) as [-> | ->].
  - by destruct (solved_count_var vars), (level_var vars).
Qed.

(** The world after [get_euler_stats]: one request went out. *)
Lemma get_euler_stats_world (u : string) (w : World) :
  (get_euler_stats max u w).2 = requested (profile_url u) w.
Proof.
  unfold get_euler_stats, requests.get. exn_simpl.
  destruct (upstream w (profile_url u)) as [st text| |]; simpl; try done.
  unfold requests.raise_for_status; simpl.
  destruct ((400 <=? st) && (st <? 600)); simpl.
  - by destruct (st =? 404).
  - by rewrite parse_profile_eq.
Qed.

(** The pair returned for each answer of the upstream. *)
Lemma get_euler_stats_good (u : string) (w : World) (st : Z) (text : string) :
  upstream w (profile_url u) = Responded st text ->
  (400 <=? st) && (st <? 600) = false ->
  (get_euler_stats max u w).1 =
    match parse_numbers max (fields text) with
    | inl _ => (None, Some "Could not parse stats")
    | inr vars =>
        match solved_count_var vars, level_var vars with
        | Some sc, Some lv =>
            (Some {| username := u; solved_count := sc; level := lv |}, None)
        | _, _ => (None, Some "Could not find stats")
        end
    end.
Proof.
  intros Hup Hst. unfold get_euler_stats, requests.get. exn_simpl.
  rewrite Hup. unfold requests.raise_for_status. simpl. rewrite Hst. simpl.
  by rewrite parse_profile_eq.
Qed.

Lemma get_euler_stats_http_error (u : string) (w : World) (st : Z) (text : string) :
  upstream w (profile_url u) = Responded st text ->
  (400 <=? st) && (st <? 600) = true ->
  (get_euler_stats max u w).1 =
    if st =? 404 then (None, Some ("User '" +:+ u +:+ "' not found"))
    else (None, Some "Project Euler request failed").
Proof.
  intros Hup Hst. unfold get_euler_stats, requests.get. exn_simpl.
  rewrite Hup. unfold requests.raise_for_status. simpl. rewrite Hst. simpl.
  by destruct (st =? 404).
Qed.

Lemma get_euler_stats_unreachable (u : string) (w : World) :
  upstream w (profile_url u) = RequestFailed ->
  (get_euler_stats max u w).1 = (None, Some "Could not connect to Project Euler").
Proof.
  intros Hup. unfold get_euler_stats, requests.get. exn_simpl. by rewrite Hup.
Qed.

Lemma get_euler_stats_crashed (u : string) (w : World) :
  upstream w (profile_url u) = Crashed ->
  (get_euler_stats max u w).1 = (None, Some "An internal error occurred").
Proof.
  intros Hup. unfold get_euler_stats, requests.get. exn_simpl. by rewrite Hup.
Qed.

End Parser.

(** ** The results of [get_euler_stats] *)

Section Fetch.

Variable max : nat.

(** Every call ends in one of three ways: stats for the input username and
    no message; the unknown-user message, after an upstream 404; or one of
    the fixed failure messages, after anything but an upstream 404. *)
Lemma get_euler_stats_cases (u : string) (w : World) :
  (exists sc lv,
      (get_euler_stats max u w).1 =
        (Some {| username := u; solved_count := sc; level := lv |}, None)
      /\ forall text, upstream w (profile_url u) <> Responded 404 text)
  \/ ((get_euler_stats max u w).1 = (None, Some ("User '" +:+ u +:+ "' not found"))
      /\ exists text, upstream w (profile_url u) = Responded 404 text)
  \/ (exists m,
      (get_euler_stats max u w).1 = (None, Some m)
      /\ m ∈ failure_messages
      /\ forall text, upstream w (profile_url u) <> Responded 404 text).
Proof.
  unfold failure_messages.
  destruct (upstream w (profile_url u)) as [st text| |] eqn:Hup.
  - destruct ((400 <=? st) && (st <? 600)) eqn:Hst.
    + rewrite (get_euler_stats_http_error max u w st text Hup Hst).
      destruct (st =? 404) eqn:H404.
      * apply Z.eqb_eq in H404 as ->. right. left. eauto.
      * apply Z.eqb_neq in H404. right. right.
        exists "Project Euler request failed". split; [done|]. split; [set_solver|].
        intros text' [= ? ?]. done.
    + assert (Hne : forall text', Responded st text <> Responded 404 text').
      { intros text' [= -> ?]. discriminate. }
      rewrite (get_euler_stats_good max u w st text Hup Hst).
      destruct (parse_numbers max (fields text)) as [e|vars] eqn:Hp.
      * right. right. exists "Could not parse stats". split; [done|]. split; [set_solver|done].
      * destruct (parse_numbers_assigns max _ _ Hp) as [[sc ->] [lv ->]].
        left. exists sc, lv. done.
  - rewrite (get_euler_stats_unreachable max u w Hup). right. right.
    exists "Could not connect to Project Euler". split; [done|]. split; [set_solver|done].
  - rewrite (get_euler_stats_crashed max u w Hup). right. right.
    exists "An internal error occurred". split; [done|]. split; [set_solver|done].
Qed.

(** None of the fixed failure messages holds the words "not found". *)
Lemma failure_message_status (m : string) :
  m ∈ failure_messages ->
  Py.nonempty m = true /\ Py.contains "not found" (Py.lower m) = false.
Proof.
  unfold failure_messages. intros Hm.
  repeat (apply elem_of_cons in Hm as [-> | Hm]; [by vm_compute|]).
  by apply elem_of_nil in Hm.
Qed.

End Fetch.

(** ** The handler *)

#[local] Arguments Py.lower : simpl never.
#[local] Arguments Py.contains : simpl never.
#[local] Arguments Py.nonempty : simpl never.
#[local] Arguments String.append : simpl never.

Section Handler.

Variable max : nat.
Variable tpl : context -> string.

(** The response of the guard of line 100: only the content type is set. *)
Lemma handle_request_missing (arg : option string) (w : World) :
  truthy arg = false ->
  handle_request max tpl arg w =
    (inr {| flask.data := tpl (ErrorCard "Username required (?username=...)");
            flask.headers :=
              <[ "Content-Type" := "image/svg+xml" ]>
                {[ "Content-Type" := "text/html; charset=utf-8" ]};
            flask.status_code := 400 |}, w).
Proof. intros H. unfold handle_request. by rewrite H. Qed.

(** A status other than 404 is not taken for a 404. *)
Lemma responded_not_404 {A : Type} (st : Z) (text : string) (x y : A) :
  st <> 404 ->
  match Responded st text with
  | Responded 404 _ => x
  | _ => y
  end = y.
Proof.
  intros Hst. destruct st as [|p|p]; try done.
  repeat (destruct p as [p|p|]; try done).
Qed.

(** On what the fetch really returns, the mapping is: 200 for stats, and
    for a message 404 after an upstream 404 and 500 otherwise. *)
Lemma expected_status_actual (arg : option string) (w : World) :
  expected_status arg (get_euler_stats max (default "" arg) w).1
    (upstream w (profile_url (default "" arg))) =
  if negb (truthy arg) then 400
  else
    match (get_euler_stats max (default "" arg) w).1 with
    | (Some _, _) => 200
    | (None, _) =>
        match upstream w (profile_url (default "" arg)) with
        | Responded 404 _ => 404
        | _ => 500
        end
    end.
Proof.
  unfold expected_status. destruct (negb (truthy arg)); [done|].
  destruct (upstream w (profile_url (default "" arg))) as [st text| |] eqn:Hup.
  - destruct ((400 <=? st) && (st <? 600)) eqn:Hst.
    + rewrite (get_euler_stats_http_error max _ w st text Hup Hst).
      destruct (st =? 404) eqn:H404.
      * by apply Z.eqb_eq in H404 as ->.
      * apply Z.eqb_neq in H404. by rewrite responded_not_404.
    + assert (H404 : st <> 404) by (intros ->; discriminate).
      apply Z.eqb_neq in H404 as H404'. rewrite H404'.
      destruct (get_euler_stats max _ w).1 as [[stats|] err]; [done|].
      by rewrite responded_not_404.
  - by rewrite (get_euler_stats_unreachable max _ w Hup).
  - by rewrite (get_euler_stats_crashed max _ w Hup).
Qed.

(** The response past the guard: both headers are set, one request went
    out, and the status follows the specification's mapping. *)
Lemma handle_request_given (arg : option string) (w : World) :
  truthy arg = true ->
  exists body,
    handle_request max tpl arg w =
      (inr {| flask.data := body;
              flask.headers :=
                <[ "Cache-Control" := cache_control ]>
                  (<[ "Content-Type" := "image/svg+xml" ]>
                     {[ "Content-Type" := "text/html; charset=utf-8" ]});
              flask.status_code :=
                expected_status arg (get_euler_stats max (default "" arg) w).1
                  (upstream w (profile_url (default "" arg))) |},
       requested (profile_url (default "" arg)) w).
Proof.
  intros H. rewrite expected_status_actual. unfold handle_request.
  rewrite H. simpl.
  pose proof (get_euler_stats_world max (default "" arg) w) as Hw.
  destruct (get_euler_stats_cases max (default "" arg) w)
    as [(sc & lv & Hres & Hno) | [(Hres & text & Hup) | (m & Hres & Hm & Hno)]];
    destruct (get_euler_stats max (default "" arg) w) as [[stats err] w'];
    simpl in Hres, Hw; injection Hres as -> ->; subst w'; simpl.
  - eauto.
  - rewrite Hup.
    rewrite user_not_found_message. eauto.
  - destruct (failure_message_status m Hm) as [-> ->].
    exists (tpl (ErrorCard m)). do 3 f_equal.
    destruct (upstream w (profile_url (default "" arg))) as [st text| |]; try done.
    destruct (decide (st = 404)) as [-> | Hst]; [by destruct (Hno text)|].
    destruct st as [|p|p]; try done.
    repeat (destruct p as [p|p|]; try done).
Qed.

End Handler.

(** ** The claims *)

Section Claims.

Variable max : nat.
Variable tpl : context -> string.

(** X17. For every payload of a good response in which each field
    after the first that [isdigit] accepts is made of the digits 0-9 only
    and is within the digit limit of [int], and which has at least two such
    fields, the fetch succeeds: [solved_count] is the number the first of
    them denotes and [level] the number the second denotes, in the order of
    [parts[1:]]. *)
Theorem scan_takes_first_two_digit_fields
    (u : string) (w : World) (st : Z) (text a b : string) (rest : list string) :
  upstream w (profile_url u) = Responded st text ->
  (400 <=? st) && (st <? 600) = false ->
  (forall p, p ∈ drop 1 (fields text) ->
             Py.isdigit p = true -> plain_decimal max p = true) ->
  List.filter Py.isdigit (drop 1 (fields text)) = a :: b :: rest ->
  (get_euler_stats max u w).1 =
    (Some {| username := u;
             solved_count := decimal_value a;
             level := decimal_value b |}, None).
Proof.
  intros Hup Hst Hplain Hfilter.
  rewrite (get_euler_stats_good max u w st text Hup Hst).
  unfold parse_numbers.
  rewrite (collect_numbers_plain max _ [] Hplain), Hfilter.
  reflexivity.
Qed.

(** X18. For every payload of a good response in which each field
    after the first that [isdigit] accepts is taken by [int], and which has
    fewer than two such fields, the result is that of the fixed positions:
    the stats with [int(parts[3])] and [int(parts[4])] when both fields
    exist and [int] takes both, and "Could not parse stats" when either
    index is out of range or either field is not an integer literal. *)
Theorem fallback_reads_fixed_positions
    (u : string) (w : World) (st : Z) (text : string) :
  upstream w (profile_url u) = Responded st text ->
  (400 <=? st) && (st <? 600) = false ->
  (forall p, p ∈ drop 1 (fields text) ->
             Py.isdigit p = true -> plain_decimal max p = true) ->
  (length (List.filter Py.isdigit (drop 1 (fields text))) < 2)%nat ->
  (get_euler_stats max u w).1 =
    match fields text !! 3%nat, fields text !! 4%nat with
    | Some p3, Some p4 =>
        match Py.int max p3, Py.int max p4 with
        | Some n3, Some n4 =>
            (Some {| username := u; solved_count := n3; level := n4 |}, None)
        | _, _ => (None, Some "Could not parse stats")
        end
    | _, _ => (None, Some "Could not parse stats")
    end.
Proof.
  intros Hup Hst Hplain Hfew.
  rewrite (get_euler_stats_good max u w st text Hup Hst).
  unfold parse_numbers.
  rewrite (collect_numbers_plain max _ [] Hplain). exn_simpl.
  rewrite length_map.
  destruct (2 <=? _)%nat eqn:Hle; [apply Nat.leb_le in Hle; lia|].
  unfold index, int.
  destruct (fields text !! 3%nat) as [p3|]; simpl; [|by destruct (fields text !! 4%nat)].
  destruct (Py.int max p3) as [n3|]; simpl.
  - destruct (fields text !! 4%nat) as [p4|]; simpl; [|done].
    by destruct (Py.int max p4).
  - destruct (fields text !! 4%nat) as [p4|]; simpl; [|done].
    by destruct (Py.int max p4).
Qed.

(** C3, on the failing input. For the payload "bob,US,EN,-5,7" the fetch
    succeeds through the fixed positions with a negative [solved_count]. *)
Theorem fallback_returns_negative_count :
  (get_euler_stats max "bob" (serving (Responded 200 negative_payload))).1 =
    (Some {| username := "bob"; solved_count := -5; level := 7 |}, None).
Proof.
  rewrite (get_euler_stats_good max "bob" _ 200 negative_payload); [|done|done].
  reflexivity.
Qed.

(** C4. Every request gets a response, and its status is the one of the
    mapping: 400 when the username is missing; 404 when the upstream
    answered 404; 500 when the upstream answered another 4xx or 5xx or
    did not answer, and when the fetch of any other answer returns no
    stats; 200 when the fetch returns stats, and only then. *)
Theorem status_follows_the_mapping (arg : option string) (w : World) :
  exists r w',
    handle_request max tpl arg w = (inr r, w')
    /\ flask.status_code r =
         expected_status arg (get_euler_stats max (default "" arg) w).1
           (upstream w (profile_url (default "" arg)))
    /\ (flask.status_code r = 200 <->
          truthy arg = true /\ is_Some (get_euler_stats max (default "" arg) w).1.1)
    /\ (truthy arg = true ->
        forall text,
          upstream w (profile_url (default "" arg)) = Responded 404 text ->
          flask.status_code r = 404).
Proof.
  destruct (truthy arg) eqn:Harg.
  - destruct (handle_request_given max tpl arg w Harg) as [body ->].
    eexists _, _. split; [reflexivity|]. split; [reflexivity|]. simpl. split.
    + rewrite expected_status_actual, Harg. simpl.
      destruct (get_euler_stats max (default "" arg) w).1 as [[stats|] err]; simpl.
      * split; [eauto|done].
      * split; [|by intros [_ [? ?]]].
        destruct (upstream w (profile_url (default "" arg))) as [st text| |];
          try done.
        destruct (decide (st = 404)) as [-> | Hst]; [done|].
        by rewrite responded_not_404.
    + intros _ text Hup. unfold expected_status. by rewrite Harg, Hup.
  - rewrite (handle_request_missing max tpl arg w Harg).
    eexists _, _. split; [reflexivity|]. simpl.
    split; [unfold expected_status; by rewrite Harg|].
    split; [|done]. split; [done|by intros [? _]].
Qed.


(** C6. When the body of a good response is empty once stripped, the
    fetch returns the message "Could not parse stats", a parse failure,
    and the response to the request has status 500. *)
Theorem empty_body_is_parse_failure
    (u : string) (w : World) (st : Z) (text : string) :
  Py.nonempty u = true ->
  upstream w (profile_url u) = Responded st text ->
  (400 <=? st) && (st <? 600) = false ->
  Py.strip text = EmptyString ->
  (get_euler_stats max u w).1 = (None, Some "Could not parse stats")
  /\ error_reason u "Could not parse stats" = Some ParseFailure
  /\ exists r w',
       handle_request max tpl (Some u) w = (inr r, w')
       /\ flask.status_code r = 500.
Proof.
  intros Hu Hup Hst Hempty.
  assert (Hres : (get_euler_stats max u w).1 = (None, Some "Could not parse stats")).
  { rewrite (get_euler_stats_good max u w st text Hup Hst).
    unfold fields. rewrite Hempty. reflexivity. }
  split; [exact Hres|]. split; [reflexivity|].
  destruct (handle_request_given max tpl (Some u) w Hu) as [body ->].
  eexists _, _. split; [reflexivity|].
  simpl. rewrite Hres. unfold expected_status. simpl. rewrite Hu. simpl.
  rewrite Hup. destruct st as [|p|p]; try done.
  repeat (destruct p as [p|p|]; try done).
Qed.

(** C7, amended. Every request gets a response of content type
    image/svg+xml. The response to a request with a username, whatever the
    fetch returns, carries the cache header; the response to a request
    without one carries no cache header. *)
Theorem content_type_and_cache_header (arg : option string) (w : World) :
  exists r w',
    handle_request max tpl arg w = (inr r, w')
    /\ flask.headers r !! "Content-Type" = Some "image/svg+xml"
    /\ flask.headers r !! "Cache-Control" =
         if truthy arg
         then Some "public, max-age=3600, s-maxage=3600, stale-while-revalidate=1800"
         else None.
Proof.
  destruct (truthy arg) eqn:Harg.
  - destruct (handle_request_given max tpl arg w Harg) as [body ->].
    eexists _, _. split; [reflexivity|]. simpl. split.
    + rewrite lookup_insert_ne by done. apply lookup_insert_eq.
    + apply lookup_insert_eq.
  - rewrite (handle_request_missing max tpl arg w Harg).
    eexists _, _. split; [reflexivity|]. simpl. split.
    + apply lookup_insert_eq.
    + rewrite lookup_insert_ne by done. by apply lookup_singleton_ne.
Qed.

(** C8. The stats of a successful fetch carry the username the fetch was
    called with, whatever the first field of the payload is. *)
Theorem stats_carry_the_input_username
    (u : string) (w w' : World) (stats : Stats) (e : option string) :
  get_euler_stats max u w = ((Some stats, e), w') ->
  username stats = u.
Proof.
  intros H.
  destruct (get_euler_stats_cases max u w)
    as [(sc & lv & Hres & _) | [(Hres & _) | (m & Hres & _)]];
    rewrite H in Hres; simpl in Hres; by simplify_eq.
Qed.

(** C9. Without a username the handler answers 400 with the error card
    "Username required (?username=...)", and no request goes out: the
    world is the one it started in. *)
Theorem missing_username_sends_nothing (w : World) :
  exists r w',
    handle_request max tpl None w = (inr r, w')
    /\ flask.status_code r = 400
    /\ flask.data r = tpl (ErrorCard "Username required (?username=...)")
    /\ outbound w' = outbound w.
Proof. eexists _, _. split; [reflexivity|]. done. Qed.

(** C10. When the inner try block ends without raising, [solved_count]
    and [level] are both set; so the fetch never returns the message
    "Could not find stats". *)
Theorem could_not_find_stats_is_unreachable :
  (forall parts,
      match parse_numbers max parts with
      | inr vars => is_Some (solved_count_var vars) /\ is_Some (level_var vars)
      | inl _ => True
      end)
  /\ (forall u w, (get_euler_stats max u w).1.2 <> Some "Could not find stats").
Proof.
  split.
  - intros parts. destruct (parse_numbers max parts) eqn:Hp; [done|].
    by apply (parse_numbers_assigns max parts).
  - intros u w.
    destruct (get_euler_stats_cases max u w)
      as [(sc & lv & -> & _) | [(-> & _) | (m & -> & Hm & _)]]; simpl.
    + done.
    + by intros [= H].
    + unfold failure_messages in Hm.
      repeat (apply elem_of_cons in Hm as [-> | Hm]; [done|]).
      by apply elem_of_nil in Hm.
Qed.

(** X1. The scan path only returns counts that are not negative: when the
    first line has at least two fields that [isdigit] accepts and the
    fetch succeeds, [solved_count] and [level] are at least 0. *)
Theorem scan_path_counts_are_nonnegative
    (u : string) (w : World) (st : Z) (text : string) (stats : Stats) :
  upstream w (profile_url u) = Responded st text ->
  (2 <= length (List.filter Py.isdigit (drop 1 (fields text))))%nat ->
  (get_euler_stats max u w).1 = (Some stats, None) ->
  0 <= solved_count stats /\ 0 <= level stats.
Proof.
  intros Hup Hmany.
  destruct ((400 <=? st) && (st <? 600)) eqn:Hst.
  { rewrite (get_euler_stats_http_error max u w st text Hup Hst).
    by destruct (st =? 404). }
  rewrite (get_euler_stats_good max u w st text Hup Hst).
  unfold parse_numbers.
  destruct (collect_numbers max (drop 1 (fields text)) []) as [e|nums] eqn:Hc;
    exn_simpl; [discriminate|].
  destruct (collect_numbers_inv max _ _ _ Hc (Forall_nil_2 _)) as [Hall Hlen].
  simpl in Hlen.
  destruct (2 <=? length nums)%nat eqn:Hle; [|apply Nat.leb_gt in Hle; lia].
  unfold index.
  destruct (nums !! 0%nat) as [n0|] eqn:H0; simpl; [|discriminate].
  destruct (nums !! 1%nat) as [n1|] eqn:H1; simpl; [|discriminate].
  intros [= <-]. simpl.
  rewrite Forall_lookup in Hall. split; eauto.
Qed.

(** X2. A request with a username sends exactly one GET, for the profile of
    that username. *)
Theorem username_sends_one_request (arg : option string) (w : World) :
  truthy arg = true ->
  exists r w',
    handle_request max tpl arg w = (inr r, w')
    /\ outbound w' = (outbound w ++ [profile_url (default "" arg)])%list.
Proof.
  intros Harg. destruct (handle_request_given max tpl arg w Harg) as [body ->].
  eexists _, _. split; reflexivity.
Qed.

(** X3. The message of line 28 is never returned: the split of a string is
    never the empty list. *)
Theorem no_data_found_is_unreachable (u : string) (w : World) :
  (get_euler_stats max u w).1.2 <> Some "No data found in profile file".
Proof.
  destruct (get_euler_stats_cases max u w)
    as [(sc & lv & -> & _) | [(-> & _) | (m & -> & Hm & _)]]; simpl.
  - done.
  - by intros [= H].
  - unfold failure_messages in Hm.
    repeat (apply elem_of_cons in Hm as [-> | Hm]; [done|]).
    by apply elem_of_nil in Hm.
Qed.

End Claims.

(** ** The claims on sample payloads *)

(** The payload "alice,GB,Python,1234,5,2020-01-01,2024-01-01" parses to
    1234 solved and level 5. *)
Lemma scan_takes_first_two_digit_fields_witness :
  upstream (serving (Responded 200 alice_payload)) (profile_url "alice")
    = Responded 200 alice_payload
  /\ (400 <=? 200) && (200 <? 600) = false
  /\ (forall p, p ∈ drop 1 (fields alice_payload) ->
                Py.isdigit p = true -> plain_decimal 4300 p = true)
  /\ List.filter Py.isdigit (drop 1 (fields alice_payload)) = ["1234"; "5"]
  /\ (get_euler_stats 4300 "alice" (serving (Responded 200 alice_payload))).1 =
       (Some {| username := "alice"; solved_count := 1234; level := 5 |}, None).
Proof.
  assert (Hplain : forall p, p ∈ drop 1 (fields alice_payload) ->
                             Py.isdigit p = true -> plain_decimal 4300 p = true).
  { intros p Hp Hd.
    assert (Hf : drop 1 (fields alice_payload)
                 = ["GB"; "Python"; "1234"; "5"; "2020-01-01"; "2024-01-01"])
      by (vm_compute; reflexivity).
    rewrite Hf in Hp. decide_fields Hp Hd. }
  assert (Hfilter : List.filter Py.isdigit (drop 1 (fields alice_payload)) = ["1234"; "5"])
    by (vm_compute; reflexivity).
  split; [reflexivity|]. split; [reflexivity|]. split; [exact Hplain|].
  split; [exact Hfilter|].
  exact (scan_takes_first_two_digit_fields 4300 "alice"
           (serving (Responded 200 alice_payload)) 200 alice_payload "1234" "5" []
           eq_refl eq_refl Hplain Hfilter).
Defined.

(** C1, on the failing input. For the payload "bob,<U+00B2>,12,3" the
    first line has three fields after the first that [isdigit] accepts,
    two of them decimal, and yet the fetch does not succeed with 12 and
    3: it fails with "Could not parse stats", on [int] of the
    superscript two. *)
Lemma superscript_field_fails_the_scan :
  List.filter Py.isdigit (drop 1 (fields superscript_payload))
    = [superscript_two; "12"; "3"]
  /\ List.filter (plain_decimal 4300) (drop 1 (fields superscript_payload))
       = ["12"; "3"]
  /\ Py.int 4300 superscript_two = None
  /\ (get_euler_stats 4300 "bob" (serving (Responded 200 superscript_payload))).1 =
       (None, Some "Could not parse stats").
Proof. repeat split; vm_compute; reflexivity. Qed.

(** A field of more digits than the limit of 4300: two decimal fields,
    and the fetch fails on [int] of the first. With the limit turned off
    the same payload parses. *)
Example long_field_fails_the_scan :
  List.filter Py.isdigit (drop 1 (fields long_payload)) = [nines 4301; "3"]
  /\ (get_euler_stats 4300 "bob" (serving (Responded 200 long_payload))).1 =
       (None, Some "Could not parse stats")
  /\ (get_euler_stats 0 "bob" (serving (Responded 200 long_payload))).1 =
       (Some {| username := "bob";
                solved_count := 10 ^ 4301 - 1;
                level := 3 |}, None).
Proof. split; [|split]; vm_compute; reflexivity. Qed.

(** The payload "bob,US,,99,,x,y" has one digit field, and the fixed
    positions hold "99" and the empty string: a parse failure. *)
Lemma fallback_reads_fixed_positions_witness :
  upstream (serving (Responded 200 bob_payload)) (profile_url "bob")
    = Responded 200 bob_payload
  /\ (400 <=? 200) && (200 <? 600) = false
  /\ (forall p, p ∈ drop 1 (fields bob_payload) ->
                Py.isdigit p = true -> plain_decimal 4300 p = true)
  /\ (length (List.filter Py.isdigit (drop 1 (fields bob_payload))) < 2)%nat
  /\ (get_euler_stats 4300 "bob" (serving (Responded 200 bob_payload))).1 =
       (None, Some "Could not parse stats").
Proof.
  assert (Hplain : forall p, p ∈ drop 1 (fields bob_payload) ->
                             Py.isdigit p = true -> plain_decimal 4300 p = true).
  { intros p Hp Hd.
    assert (Hf : drop 1 (fields bob_payload) = ["US"; ""; "99"; ""; "x"; "y"])
      by (vm_compute; reflexivity).
    rewrite Hf in Hp. decide_fields Hp Hd. }
  assert (Hfew : (length (List.filter Py.isdigit (drop 1 (fields bob_payload))) < 2)%nat)
    by (vm_compute; lia).
  split; [reflexivity|]. split; [reflexivity|]. split; [exact Hplain|].
  split; [exact Hfew|].
  exact (fallback_reads_fixed_positions 4300 "bob"
           (serving (Responded 200 bob_payload)) 200 bob_payload
           eq_refl eq_refl Hplain Hfew).
Defined.

(** C2, on the failing input. For the payload "bob,<U+00B2>,x,+5,+6" the
    first line has one field after the first that [isdigit] accepts, and
    positions 3 and 4 hold the integer literals +5 and +6; yet the fetch
    does not fall back to them: it fails with "Could not parse stats",
    on [int] of the superscript two, before it reads them. *)
Lemma superscript_field_blocks_the_fallback :
  List.filter Py.isdigit (drop 1 (fields superscript_signed_payload))
    = [superscript_two]
  /\ fields superscript_signed_payload !! 3%nat = Some "+5"
  /\ fields superscript_signed_payload !! 4%nat = Some "+6"
  /\ Py.int 4300 "+5" = Some 5
  /\ Py.int 4300 "+6" = Some 6
  /\ (get_euler_stats 4300 "bob"
        (serving (Responded 200 superscript_signed_payload))).1 =
       (None, Some "Could not parse stats").
Proof. repeat split; vm_compute; reflexivity. Qed.

(** A body of blanks. *)
Lemma empty_body_is_parse_failure_witness :
  Py.nonempty "bob" = true
  /\ upstream (serving (Responded 200 "   ")) (profile_url "bob") = Responded 200 "   "
  /\ (400 <=? 200) && (200 <? 600) = false
  /\ Py.strip "   " = EmptyString
  /\ (get_euler_stats 4300 "bob" (serving (Responded 200 "   "))).1 =
       (None, Some "Could not parse stats")
  /\ error_reason "bob" "Could not parse stats" = Some ParseFailure
  /\ exists r w',
       handle_request 4300 plain_template (Some "bob") (serving (Responded 200 "   "))
         = (inr r, w')
       /\ flask.status_code r = 500.
Proof.
  split; [reflexivity|]. split; [reflexivity|]. split; [reflexivity|].
  split; [reflexivity|].
  exact (empty_body_is_parse_failure 4300 plain_template "bob"
           (serving (Responded 200 "   ")) 200 "   "
           eq_refl eq_refl eq_refl eq_refl).
Defined.

(** Without a username the response has no cache header. *)
Lemma missing_username_response_has_no_cache_header :
  exists r w',
    handle_request 4300 plain_template None (serving Crashed) = (inr r, w')
    /\ flask.headers r !! "Cache-Control" = None.
Proof.
  eexists _, _. split; [reflexivity|]. simpl.
  rewrite lookup_insert_ne by done. by apply lookup_singleton_ne.
Qed.

(** A fetch for "ALICE" of a payload whose first field is "alice". *)
Lemma stats_carry_the_input_username_witness :
  get_euler_stats 4300 "ALICE" (serving (Responded 200 alice_payload)) =
    ((Some {| username := "ALICE"; solved_count := 1234; level := 5 |}, None),
     requested (profile_url "ALICE") (serving (Responded 200 alice_payload)))
  /\ username {| username := "ALICE"; solved_count := 1234; level := 5 |} = "ALICE".
Proof.
  assert (H : get_euler_stats 4300 "ALICE" (serving (Responded 200 alice_payload)) =
    ((Some {| username := "ALICE"; solved_count := 1234; level := 5 |}, None),
     requested (profile_url "ALICE") (serving (Responded 200 alice_payload))))
    by (vm_compute; reflexivity).
  split; [exact H|].
  exact (stats_carry_the_input_username 4300 "ALICE" _ _ _ _ H).
Defined.

(** The sample payload of the specification goes through the scan path. *)
Lemma scan_path_counts_are_nonnegative_witness :
  upstream (serving (Responded 200 alice_payload)) (profile_url "alice")
    = Responded 200 alice_payload
  /\ (2 <= length (List.filter Py.isdigit (drop 1 (fields alice_payload))))%nat
  /\ (get_euler_stats 4300 "alice" (serving (Responded 200 alice_payload))).1 =
       (Some {| username := "alice"; solved_count := 1234; level := 5 |}, None)
  /\ 0 <= 1234 /\ 0 <= 5.
Proof.
  assert (Hmany : (2 <= length (List.filter Py.isdigit
                                  (drop 1 (fields alice_payload))))%nat)
    by (vm_compute; lia).
  assert (Hres : (get_euler_stats 4300 "alice"
                    (serving (Responded 200 alice_payload))).1 =
       (Some {| username := "alice"; solved_count := 1234; level := 5 |}, None))
    by (vm_compute; reflexivity).
  split; [reflexivity|]. split; [exact Hmany|]. split; [exact Hres|].
  exact (scan_path_counts_are_nonnegative 4300 "alice"
           (serving (Responded 200 alice_payload)) 200 alice_payload _
           eq_refl Hmany Hres).
Defined.

(** A request for "bob" while the upstream is down. *)
Lemma username_sends_one_request_witness :
  truthy (Some "bob") = true
  /\ exists r w',
       handle_request 4300 plain_template (Some "bob") (serving RequestFailed)
         = (inr r, w')
       /\ outbound w' = [profile_url "bob"].
Proof.
  split; [reflexivity|].
  exact (username_sends_one_request 4300 plain_template (Some "bob")
           (serving RequestFailed) eq_refl).
Defined.

(** ** Further properties of the parser and of the handler *)

Section Further.

Variable max : nat.
Variable tpl : context -> string.

(** The first line always has a first field. *)
Lemma fields_is_cons (text : string) : exists f fs, fields text = f :: fs.
Proof. unfold fields. rewrite (split_is_cons ","). simpl. eauto. Qed.

(** What the loop appends is [int] of the fields that [isdigit] accepts,
    in their order. *)
Lemma collect_numbers_values (fs : list string) (acc nums : list Z) :
  collect_numbers max fs acc = inr nums ->
  exists vals,
    nums = (acc ++ vals)%list
    /\ Forall2 (fun p v => Py.int max p = Some v) (List.filter Py.isdigit fs) vals.
Proof.
  revert acc. induction fs as [|p fs IH]; intros acc; simpl.
  - intros [= <-]. exists []. by rewrite app_nil_r.
  - destruct (Py.isdigit p) eqn:Hd; [|apply IH].
    unfold int. destruct (Py.int max p) as [n|] eqn:Hn; exn_simpl; [|discriminate].
    intros Hc. destruct (IH _ Hc) as (vals & -> & Hall).
    exists (n :: vals). split; [by rewrite <- app_assoc|]. by constructor.
Qed.

(** One field that [isdigit] accepts and [int] rejects stops the loop. *)
Lemma collect_numbers_bad_field (fs : list string) (acc : list Z) (p : string) :
  p ∈ fs -> Py.isdigit p = true -> Py.int max p = None ->
  exists e, collect_numbers max fs acc = inl e.
Proof.
  intros Hin Hd Hn. revert acc.
  induction fs as [|q fs IH]; intros acc; [by apply elem_of_nil in Hin|].
  simpl. apply elem_of_cons in Hin as [<- | Hin].
  - rewrite Hd. unfold int. rewrite Hn. exn_simpl. eauto.
  - destruct (Py.isdigit q); [|by apply IH].
    destruct (int max q) as [e|n]; exn_simpl; [eauto|by apply IH].
Qed.

(** The inner [try] does not read the first field. *)
Lemma parse_numbers_skips_first (p p' : string) (rest : list string) :
  parse_numbers max (p :: rest) = parse_numbers max (p' :: rest).
Proof. reflexivity. Qed.

(** A successful fetch comes from a good response whose first line the
    inner [try] parsed. *)
Lemma get_euler_stats_success_inv
    (u : string) (w : World) (st : Z) (text : string) (stats : Stats) :
  upstream w (profile_url u) = Responded st text ->
  (get_euler_stats max u w).1 = (Some stats, None) ->
  (400 <=? st) && (st <? 600) = false
  /\ parse_numbers max (fields text) =
       inr {| solved_count_var := Some (solved_count stats);
              level_var := Some (level stats) |}
  /\ username stats = u.
Proof.
  intros Hup. destruct ((400 <=? st) && (st <? 600)) eqn:Hst.
  { rewrite (get_euler_stats_http_error max u w st text Hup Hst).
    by destruct (st =? 404). }
  rewrite (get_euler_stats_good max u w st text Hup Hst).
  destruct (parse_numbers max (fields text)) as [e|[sc lv]]; [discriminate|].
  simpl. destruct sc as [sc|], lv as [lv|]; try discriminate.
  intros [= <-]. done.
Qed.

(** The scan branch of the inner [try], read backwards. *)
Lemma parse_numbers_scan_inv (parts : list string) (vars : locals)
    (a b : string) (rest : list string) :
  parse_numbers max parts = inr vars ->
  List.filter Py.isdigit (drop 1 parts) = a :: b :: rest ->
  exists na nb,
    Py.int max a = Some na /\ Py.int max b = Some nb
    /\ vars = {| solved_count_var := Some na; level_var := Some nb |}.
Proof.
  unfold parse_numbers. intros Hp Hf.
  destruct (collect_numbers max (drop 1 parts) []) as [e|nums] eqn:Hc;
    exn_simpl; [discriminate|].
  destruct (collect_numbers_values _ _ _ Hc) as (vals & -> & Hall).
  rewrite Hf in Hall.
  apply Forall2_cons_inv_l in Hall as (na & vals' & Ha & Hall & ->).
  apply Forall2_cons_inv_l in Hall as (nb & vals'' & Hb & _ & ->).
  simpl in Hp. change (2 <=? S (S (length vals'')))%nat with true in Hp.
  simpl in Hp. injection Hp as <-. eauto.
Qed.

(** The fixed-position branch of the inner [try], read backwards. *)
Lemma parse_numbers_fallback_inv (parts : list string) (vars : locals) :
  parse_numbers max parts = inr vars ->
  (length (List.filter Py.isdigit (drop 1 parts)) < 2)%nat ->
  exists p3 p4 n3 n4,
    parts !! 3%nat = Some p3 /\ parts !! 4%nat = Some p4
    /\ Py.int max p3 = Some n3 /\ Py.int max p4 = Some n4
    /\ vars = {| solved_count_var := Some n3; level_var := Some n4 |}.
Proof.
  unfold parse_numbers. intros Hp Hfew.
  destruct (collect_numbers max (drop 1 parts) []) as [e|nums] eqn:Hc;
    exn_simpl; [discriminate|].
  destruct (collect_numbers_inv max _ _ _ Hc (Forall_nil_2 _)) as [_ Hlen].
  simpl in Hlen.
  destruct (2 <=? length nums)%nat eqn:Hle; [apply Nat.leb_le in Hle; lia|].
  unfold index, int in Hp.
  destruct (parts !! 3%nat) as [p3|]; simpl in Hp; [|discriminate].
  destruct (Py.int max p3) as [n3|] eqn:H3; simpl in Hp; [|discriminate].
  destruct (parts !! 4%nat) as [p4|]; simpl in Hp; [|discriminate].
  destruct (Py.int max p4) as [n4|] eqn:H4; simpl in Hp; [|discriminate].
  injection Hp as <-. by exists p3, p4, n3, n4.
Qed.

(** Two good responses whose first lines agree after the first field give
    the same pair. *)
Lemma get_euler_stats_same_fields
    (u : string) (w w' : World) (st st' : Z) (text text' : string) :
  upstream w (profile_url u) = Responded st text ->
  upstream w' (profile_url u) = Responded st' text' ->
  (400 <=? st) && (st <? 600) = false ->
  (400 <=? st') && (st' <? 600) = false ->
  drop 1 (fields text) = drop 1 (fields text') ->
  (get_euler_stats max u w).1 = (get_euler_stats max u w').1.
Proof.
  intros Hup Hup' Hst Hst' Heq.
  rewrite (get_euler_stats_good max u w st text Hup Hst).
  rewrite (get_euler_stats_good max u w' st' text' Hup' Hst').
  destruct (fields_is_cons text) as (f & fs & Hf).
  destruct (fields_is_cons text') as (f' & fs' & Hf').
  rewrite Hf, Hf' in Heq |- *. change (fs = fs') in Heq. subst fs'.
  by rewrite (parse_numbers_skips_first f f' fs).
Qed.

(** The body of the response past the guard is the card of what the fetch
    returned: the stats card for stats, the error card with the message
    otherwise. *)
Lemma handle_request_render (arg : option string) (w : World) :
  truthy arg = true ->
  exists r w',
    handle_request max tpl arg w = (inr r, w')
    /\ flask.status_code r =
         expected_status arg (get_euler_stats max (default "" arg) w).1
           (upstream w (profile_url (default "" arg)))
    /\ flask.data r =
         match (get_euler_stats max (default "" arg) w).1 with
         | (_, Some message) => tpl (ErrorCard message)
         | (Some stats, None) => tpl (StatsCard stats)
         | (None, None) => EmptyString
         end.
Proof.
  intros H. destruct (handle_request_given max tpl arg w H) as [body Heq].
  eexists _, _. split; [exact Heq|]. split; [reflexivity|]. simpl.
  revert Heq. unfold handle_request. rewrite H. simpl.
  destruct (get_euler_stats_cases max (default "" arg) w)
    as [(sc & lv & Hres & _) | [(Hres & _) | (m & Hres & Hm & _)]];
    destruct (get_euler_stats max (default "" arg) w) as [[stats err] w'];
    simpl in Hres; injection Hres as -> ->; simpl.
  - by intros [= <- _].
  - by intros [= <- _].
  - destruct (failure_message_status m Hm) as [-> _]. by intros [= <- _].
Qed.

End Further.

Section FurtherTheorems.

Variable max : nat.
Variable tpl : context -> string.

Lemma expected_status_of_failure
    (u : string) (e : option string) (st : Z) (text : string) :
  Py.nonempty u = true -> st <> 404 ->
  expected_status (Some u) (None, e) (Responded st text) = 500.
Proof.
  intros Hu Hst. unfold expected_status. simpl. rewrite Hu. simpl.
  destruct st as [|p|p]; try done.
  repeat (destruct p as [p|p|]; try done).
Qed.

(** X4. An upstream 404 is answered with status 404 and the error card
    "User '<username>' not found", with the username as it was given. *)
Theorem unknown_user_gets_the_404_card (u : string) (w : World) (text : string) :
  Py.nonempty u = true ->
  upstream w (profile_url u) = Responded 404 text ->
  exists r w',
    handle_request max tpl (Some u) w = (inr r, w')
    /\ flask.status_code r = 404
    /\ flask.data r = tpl (ErrorCard ("User '" +:+ u +:+ "' not found")).
Proof.
  intros Hu Hup.
  destruct (handle_request_render max tpl (Some u) w Hu) as (r & w' & Heq & Hst & Hdata).
  simpl in Hst, Hdata.
  rewrite (get_euler_stats_http_error max u w 404 text Hup eq_refl) in Hst, Hdata.
  exists r, w'. split; [done|]. split; [|done].
  rewrite Hst, Hup. unfold expected_status. simpl. by rewrite Hu.
Qed.

(** X5. Any other 4xx or 5xx answer of the upstream is answered with
    status 500 and the error card "Project Euler request failed"; the
    body of the upstream answer is not read. *)
Theorem http_error_gets_the_500_card
    (u : string) (w : World) (st : Z) (text : string) :
  Py.nonempty u = true ->
  upstream w (profile_url u) = Responded st text ->
  400 <= st < 600 ->
  st <> 404 ->
  exists r w',
    handle_request max tpl (Some u) w = (inr r, w')
    /\ flask.status_code r = 500
    /\ flask.data r = tpl (ErrorCard "Project Euler request failed").
Proof.
  intros Hu Hup Hrange H404.
  assert (Hst : (400 <=? st) && (st <? 600) = true).
  { apply andb_true_iff. split; [apply Z.leb_le|apply Z.ltb_lt]; lia. }
  destruct (handle_request_render max tpl (Some u) w Hu) as (r & w' & Heq & Hs & Hdata).
  simpl in Hs, Hdata.
  rewrite (get_euler_stats_http_error max u w st text Hup Hst) in Hs, Hdata.
  apply Z.eqb_neq in H404 as H404'. rewrite H404' in Hs, Hdata.
  exists r, w'. split; [done|]. split; [|done].
  rewrite Hs, Hup. by apply expected_status_of_failure.
Qed.

(** X6. When the request to the upstream fails (no connection, timeout),
    the answer is status 500 with the error card "Could not connect to
    Project Euler". *)
Theorem connection_failure_gets_the_500_card (u : string) (w : World) :
  Py.nonempty u = true ->
  upstream w (profile_url u) = RequestFailed ->
  exists r w',
    handle_request max tpl (Some u) w = (inr r, w')
    /\ flask.status_code r = 500
    /\ flask.data r = tpl (ErrorCard "Could not connect to Project Euler").
Proof.
  intros Hu Hup.
  destruct (handle_request_render max tpl (Some u) w Hu) as (r & w' & Heq & Hs & Hdata).
  simpl in Hs, Hdata.
  rewrite (get_euler_stats_unreachable max u w Hup) in Hs, Hdata.
  exists r, w'. split; [done|]. split; [|done].
  rewrite Hs, Hup. unfold expected_status. simpl. by rewrite Hu.
Qed.

(** X7. A successful fetch is answered with status 200 and the stats card
    of exactly the stats the fetch returned. *)
Theorem success_renders_the_stats_card (u : string) (w : World) (stats : Stats) :
  Py.nonempty u = true ->
  (get_euler_stats max u w).1 = (Some stats, None) ->
  exists r w',
    handle_request max tpl (Some u) w = (inr r, w')
    /\ flask.status_code r = 200
    /\ flask.data r = tpl (StatsCard stats).
Proof.
  intros Hu Hres.
  destruct (handle_request_render max tpl (Some u) w Hu) as (r & w' & Heq & Hs & Hdata).
  rewrite expected_status_actual in Hs.
  simpl in Hs, Hdata. rewrite Hres in Hs, Hdata. rewrite Hu in Hs.
  exists r, w'. split; [done|]. split; done.
Qed.

(** X8. Whenever the fetch succeeds on a first line with at least two
    fields after the first that [isdigit] accepts, [solved_count] is
    [int] of the first of them and [level] is [int] of the second,
    whatever the other fields are. *)
Theorem scan_result_is_the_first_two_digit_fields
    (u : string) (w : World) (st : Z) (text : string) (stats : Stats)
    (a b : string) (rest : list string) :
  upstream w (profile_url u) = Responded st text ->
  List.filter Py.isdigit (drop 1 (fields text)) = a :: b :: rest ->
  (get_euler_stats max u w).1 = (Some stats, None) ->
  Py.int max a = Some (solved_count stats)
  /\ Py.int max b = Some (level stats).
Proof.
  intros Hup Hf Hres.
  destruct (get_euler_stats_success_inv max u w st text stats Hup Hres) as (_ & Hp & _).
  destruct (parse_numbers_scan_inv max _ _ a b rest Hp Hf) as (na & nb & Ha & Hb & Hv).
  by injection Hv as <- <-.
Qed.

(** X9. Whenever the fetch succeeds on a first line with fewer than two
    fields after the first that [isdigit] accepts, the line has fields at
    positions 3 and 4, and [solved_count] and [level] are [int] of
    them. *)
Theorem fallback_result_is_the_fixed_positions
    (u : string) (w : World) (st : Z) (text : string) (stats : Stats) :
  upstream w (profile_url u) = Responded st text ->
  (length (List.filter Py.isdigit (drop 1 (fields text))) < 2)%nat ->
  (get_euler_stats max u w).1 = (Some stats, None) ->
  exists p3 p4,
    fields text !! 3%nat = Some p3 /\ fields text !! 4%nat = Some p4
    /\ Py.int max p3 = Some (solved_count stats)
    /\ Py.int max p4 = Some (level stats).
Proof.
  intros Hup Hfew Hres.
  destruct (get_euler_stats_success_inv max u w st text stats Hup Hres) as (_ & Hp & _).
  destruct (parse_numbers_fallback_inv max _ _ Hp Hfew)
    as (p3 & p4 & n3 & n4 & H3 & H4 & Hn3 & Hn4 & Hv).
  injection Hv as <- <-. by exists p3, p4.
Qed.

(** X10. A field after the first that [isdigit] accepts and [int] rejects
    makes the fetch fail with "Could not parse stats", wherever the field
    stands and whatever the other fields are. *)
Theorem bad_digit_field_fails_the_parse
    (u : string) (w : World) (st : Z) (text p : string) :
  upstream w (profile_url u) = Responded st text ->
  (400 <=? st) && (st <? 600) = false ->
  p ∈ drop 1 (fields text) ->
  Py.isdigit p = true ->
  Py.int max p = None ->
  (get_euler_stats max u w).1 = (None, Some "Could not parse stats").
Proof.
  intros Hup Hst Hin Hd Hn.
  rewrite (get_euler_stats_good max u w st text Hup Hst).
  unfold parse_numbers.
  destruct (collect_numbers_bad_field max _ [] p Hin Hd Hn) as [e ->].
  reflexivity.
Qed.

(** X11. A first line of fewer than five fields, fewer than two of which
    after the first [isdigit] accepts, makes the fetch fail with "Could
    not parse stats". *)
Theorem short_line_fails_the_parse
    (u : string) (w : World) (st : Z) (text : string) :
  upstream w (profile_url u) = Responded st text ->
  (400 <=? st) && (st <? 600) = false ->
  (length (fields text) < 5)%nat ->
  (length (List.filter Py.isdigit (drop 1 (fields text))) < 2)%nat ->
  (get_euler_stats max u w).1 = (None, Some "Could not parse stats").
Proof.
  intros Hup Hst Hshort Hfew.
  rewrite (get_euler_stats_good max u w st text Hup Hst).
  destruct (parse_numbers max (fields text)) as [e|vars] eqn:Hp; [done|].
  destruct (parse_numbers_fallback_inv max _ _ Hp Hfew)
    as (p3 & p4 & n3 & n4 & _ & H4 & _).
  apply lookup_lt_Some in H4. lia.
Qed.

(** X12. The fetch does not read the first field of the first line: two
    good responses whose first lines have the same fields after the first
    give the same result. *)
Theorem first_field_is_not_read
    (u : string) (w w' : World) (st st' : Z) (text text' : string) :
  upstream w (profile_url u) = Responded st text ->
  upstream w' (profile_url u) = Responded st' text' ->
  (400 <=? st) && (st <? 600) = false ->
  (400 <=? st') && (st' <? 600) = false ->
  drop 1 (fields text) = drop 1 (fields text') ->
  (get_euler_stats max u w).1 = (get_euler_stats max u w').1.
Proof. apply get_euler_stats_same_fields. Qed.

(** X13. White space around the body, blank lines included, does not
    change the result of the fetch. *)
Theorem padding_does_not_change_the_result
    (u : string) (w w' : World) (st st' : Z) (ws text ws' : string) :
  upstream w (profile_url u) = Responded st (ws +:+ text +:+ ws') ->
  upstream w' (profile_url u) = Responded st' text ->
  (400 <=? st) && (st <? 600) = false ->
  (400 <=? st') && (st' <? 600) = false ->
  blank ws = true ->
  blank ws' = true ->
  (get_euler_stats max u w).1 = (get_euler_stats max u w').1.
Proof.
  intros Hup Hup' Hst Hst' Hws Hws'.
  apply (get_euler_stats_same_fields max u w w' st st' _ _ Hup Hup' Hst Hst').
  unfold fields. by rewrite strip_padded.
Qed.

(** X14. Only the first line of the body is read: what follows the first
    line break does not change the result of the fetch, when the first
    line is not blank. *)
Theorem later_lines_are_not_read
    (u : string) (w w' : World) (st st' : Z) (l r : string) :
  upstream w (profile_url u) = Responded st (l +:+ String newline r) ->
  upstream w' (profile_url u) = Responded st' l ->
  (400 <=? st) && (st <? 600) = false ->
  (400 <=? st') && (st' <? 600) = false ->
  one_line l = true ->
  blank l = false ->
  (get_euler_stats max u w).1 = (get_euler_stats max u w').1.
Proof.
  intros Hup Hup' Hst Hst' Hone Hnb.
  apply (get_euler_stats_same_fields max u w w' st st' _ _ Hup Hup' Hst Hst').
  by rewrite fields_first_line.
Qed.


End FurtherTheorems.

(** X16. Only a 4xx or 5xx status stops the fetch: an answer with any
    other status, a redirect or 204 say, is parsed like a 200 with the
    same body. *)
Theorem status_outside_4xx_5xx_is_parsed
    (max : nat) (u : string) (w w' : World) (st : Z) (text : string) :
  upstream w (profile_url u) = Responded st text ->
  upstream w' (profile_url u) = Responded 200 text ->
  st < 400 \/ 600 <= st ->
  (get_euler_stats max u w).1 = (get_euler_stats max u w').1.
Proof.
  intros Hup Hup' Hout.
  assert (Hst : (400 <=? st) && (st <? 600) = false).
  { apply andb_false_iff. destruct Hout; [left; apply Z.leb_gt|right; apply Z.ltb_ge]; lia. }
  by apply (get_euler_stats_same_fields max u w w' st 200 text text Hup Hup' Hst).
Qed.

(** ** The further properties on sample payloads *)

Lemma unknown_user_gets_the_404_card_witness :
  Py.nonempty "doesnotexist" = true
  /\ upstream (serving (Responded 404 "")) (profile_url "doesnotexist")
       = Responded 404 ""
  /\ exists r w',
       handle_request 4300 plain_template (Some "doesnotexist")
         (serving (Responded 404 "")) = (inr r, w')
       /\ flask.status_code r = 404
       /\ flask.data r =
            plain_template (ErrorCard ("User '" +:+ "doesnotexist" +:+ "' not found")).
Proof.
  split; [reflexivity|]. split; [reflexivity|].
  exact (unknown_user_gets_the_404_card 4300 plain_template "doesnotexist"
           (serving (Responded 404 "")) "" eq_refl eq_refl).
Defined.

Lemma http_error_gets_the_500_card_witness :
  Py.nonempty "bob" = true
  /\ upstream (serving (Responded 503 "busy")) (profile_url "bob")
       = Responded 503 "busy"
  /\ 400 <= 503 < 600
  /\ 503 <> 404
  /\ exists r w',
       handle_request 4300 plain_template (Some "bob")
         (serving (Responded 503 "busy")) = (inr r, w')
       /\ flask.status_code r = 500
       /\ flask.data r = plain_template (ErrorCard "Project Euler request failed").
Proof.
  assert (Hrange : 400 <= 503 < 600) by lia.
  assert (Hne : 503 <> 404) by discriminate.
  split; [reflexivity|]. split; [reflexivity|]. split; [exact Hrange|].
  split; [exact Hne|].
  exact (http_error_gets_the_500_card 4300 plain_template "bob"
           (serving (Responded 503 "busy")) 503 "busy" eq_refl eq_refl Hrange Hne).
Defined.

Lemma connection_failure_gets_the_500_card_witness :
  Py.nonempty "bob" = true
  /\ upstream (serving RequestFailed) (profile_url "bob") = RequestFailed
  /\ exists r w',
       handle_request 4300 plain_template (Some "bob") (serving RequestFailed)
         = (inr r, w')
       /\ flask.status_code r = 500
       /\ flask.data r =
            plain_template (ErrorCard "Could not connect to Project Euler").
Proof.
  split; [reflexivity|]. split; [reflexivity|].
  exact (connection_failure_gets_the_500_card 4300 plain_template "bob"
           (serving RequestFailed) eq_refl eq_refl).
Defined.

Lemma success_renders_the_stats_card_witness :
  Py.nonempty "alice" = true
  /\ (get_euler_stats 4300 "alice" (serving (Responded 200 alice_payload))).1 =
       (Some {| username := "alice"; solved_count := 1234; level := 5 |}, None)
  /\ exists r w',
       handle_request 4300 plain_template (Some "alice")
         (serving (Responded 200 alice_payload)) = (inr r, w')
       /\ flask.status_code r = 200
       /\ flask.data r =
            plain_template
              (StatsCard {| username := "alice"; solved_count := 1234; level := 5 |}).
Proof.
  assert (Hres : (get_euler_stats 4300 "alice"
                    (serving (Responded 200 alice_payload))).1 =
       (Some {| username := "alice"; solved_count := 1234; level := 5 |}, None))
    by (vm_compute; reflexivity).
  split; [reflexivity|]. split; [exact Hres|].
  exact (success_renders_the_stats_card 4300 plain_template "alice"
           (serving (Responded 200 alice_payload)) _ eq_refl Hres).
Defined.

Lemma scan_result_is_the_first_two_digit_fields_witness :
  upstream (serving (Responded 200 alice_payload)) (profile_url "alice")
    = Responded 200 alice_payload
  /\ List.filter Py.isdigit (drop 1 (fields alice_payload)) = ["1234"; "5"]
  /\ (get_euler_stats 4300 "alice" (serving (Responded 200 alice_payload))).1 =
       (Some {| username := "alice"; solved_count := 1234; level := 5 |}, None)
  /\ Py.int 4300 "1234" = Some 1234
  /\ Py.int 4300 "5" = Some 5.
Proof.
  assert (Hf : List.filter Py.isdigit (drop 1 (fields alice_payload)) = ["1234"; "5"])
    by (vm_compute; reflexivity).
  assert (Hres : (get_euler_stats 4300 "alice"
                    (serving (Responded 200 alice_payload))).1 =
       (Some {| username := "alice"; solved_count := 1234; level := 5 |}, None))
    by (vm_compute; reflexivity).
  split; [reflexivity|]. split; [exact Hf|]. split; [exact Hres|].
  exact (scan_result_is_the_first_two_digit_fields 4300 "alice"
           (serving (Responded 200 alice_payload)) 200 alice_payload _
           "1234" "5" [] eq_refl Hf Hres).
Defined.

Lemma fallback_result_is_the_fixed_positions_witness :
  upstream (serving (Responded 200 negative_payload)) (profile_url "bob")
    = Responded 200 negative_payload
  /\ (length (List.filter Py.isdigit (drop 1 (fields negative_payload))) < 2)%nat
  /\ (get_euler_stats 4300 "bob" (serving (Responded 200 negative_payload))).1 =
       (Some {| username := "bob"; solved_count := -5; level := 7 |}, None)
  /\ exists p3 p4,
       fields negative_payload !! 3%nat = Some p3
       /\ fields negative_payload !! 4%nat = Some p4
       /\ Py.int 4300 p3 = Some (-5)
       /\ Py.int 4300 p4 = Some 7.
Proof.
  assert (Hfew : (length (List.filter Py.isdigit
                            (drop 1 (fields negative_payload))) < 2)%nat)
    by (vm_compute; lia).
  assert (Hres : (get_euler_stats 4300 "bob"
                    (serving (Responded 200 negative_payload))).1 =
       (Some {| username := "bob"; solved_count := -5; level := 7 |}, None))
    by (vm_compute; reflexivity).
  split; [reflexivity|]. split; [exact Hfew|]. split; [exact Hres|].
  exact (fallback_result_is_the_fixed_positions 4300 "bob"
           (serving (Responded 200 negative_payload)) 200 negative_payload _
           eq_refl Hfew Hres).
Defined.

Lemma bad_digit_field_fails_the_parse_witness :
  upstream (serving (Responded 200 superscript_payload)) (profile_url "bob")
    = Responded 200 superscript_payload
  /\ (400 <=? 200) && (200 <? 600) = false
  /\ superscript_two ∈ drop 1 (fields superscript_payload)
  /\ Py.isdigit superscript_two = true
  /\ Py.int 4300 superscript_two = None
  /\ (get_euler_stats 4300 "bob" (serving (Responded 200 superscript_payload))).1 =
       (None, Some "Could not parse stats").
Proof.
  assert (Hin : superscript_two ∈ drop 1 (fields superscript_payload)).
  { assert (Hf : drop 1 (fields superscript_payload) = [superscript_two; "12"; "3"])
      by (vm_compute; reflexivity).
    rewrite Hf. apply elem_of_cons. by left. }
  split; [reflexivity|]. split; [reflexivity|]. split; [exact Hin|].
  split; [reflexivity|]. split; [reflexivity|].
  exact (bad_digit_field_fails_the_parse 4300 "bob"
           (serving (Responded 200 superscript_payload)) 200 superscript_payload
           superscript_two eq_refl eq_refl Hin eq_refl eq_refl).
Defined.

Lemma short_line_fails_the_parse_witness :
  upstream (serving (Responded 200 short_payload)) (profile_url "bob")
    = Responded 200 short_payload
  /\ (400 <=? 200) && (200 <? 600) = false
  /\ (length (fields short_payload) < 5)%nat
  /\ (length (List.filter Py.isdigit (drop 1 (fields short_payload))) < 2)%nat
  /\ (get_euler_stats 4300 "bob" (serving (Responded 200 short_payload))).1 =
       (None, Some "Could not parse stats").
Proof.
  assert (Hshort : (length (fields short_payload) < 5)%nat) by (vm_compute; lia).
  assert (Hfew : (length (List.filter Py.isdigit
                            (drop 1 (fields short_payload))) < 2)%nat)
    by (vm_compute; lia).
  split; [reflexivity|]. split; [reflexivity|]. split; [exact Hshort|].
  split; [exact Hfew|].
  exact (short_line_fails_the_parse 4300 "bob"
           (serving (Responded 200 short_payload)) 200 short_payload
           eq_refl eq_refl Hshort Hfew).
Defined.

Lemma first_field_is_not_read_witness :
  upstream (serving (Responded 200 alice_payload)) (profile_url "alice")
    = Responded 200 alice_payload
  /\ upstream (serving (Responded 200 renamed_payload)) (profile_url "alice")
       = Responded 200 renamed_payload
  /\ (400 <=? 200) && (200 <? 600) = false
  /\ drop 1 (fields alice_payload) = drop 1 (fields renamed_payload)
  /\ (get_euler_stats 4300 "alice" (serving (Responded 200 alice_payload))).1 =
       (get_euler_stats 4300 "alice" (serving (Responded 200 renamed_payload))).1.
Proof.
  assert (Hf : drop 1 (fields alice_payload) = drop 1 (fields renamed_payload))
    by (vm_compute; reflexivity).
  split; [reflexivity|]. split; [reflexivity|]. split; [reflexivity|].
  split; [exact Hf|].
  exact (first_field_is_not_read 4300 "alice"
           (serving (Responded 200 alice_payload))
           (serving (Responded 200 renamed_payload))
           200 200 alice_payload renamed_payload
           eq_refl eq_refl eq_refl eq_refl Hf).
Defined.

Lemma padding_does_not_change_the_result_witness :
  upstream (serving (Responded 200 padded_payload)) (profile_url "alice")
    = Responded 200 (String newline " " +:+ alice_payload
                     +:+ String " " (String newline EmptyString))
  /\ upstream (serving (Responded 200 alice_payload)) (profile_url "alice")
       = Responded 200 alice_payload
  /\ (400 <=? 200) && (200 <? 600) = false
  /\ blank (String newline " ") = true
  /\ blank (String " " (String newline EmptyString)) = true
  /\ (get_euler_stats 4300 "alice" (serving (Responded 200 padded_payload))).1 =
       (get_euler_stats 4300 "alice" (serving (Responded 200 alice_payload))).1.
Proof.
  split; [reflexivity|]. split; [reflexivity|]. split; [reflexivity|].
  split; [reflexivity|]. split; [reflexivity|].
  exact (padding_does_not_change_the_result 4300 "alice"
           (serving (Responded 200 padded_payload))
           (serving (Responded 200 alice_payload))
           200 200 (String newline " ") alice_payload
           (String " " (String newline EmptyString))
           eq_refl eq_refl eq_refl eq_refl eq_refl eq_refl).
Defined.

Lemma later_lines_are_not_read_witness :
  upstream (serving (Responded 200 two_line_payload)) (profile_url "alice")
    = Responded 200 (alice_payload +:+ String newline "1,2,3,5,8")
  /\ upstream (serving (Responded 200 alice_payload)) (profile_url "alice")
       = Responded 200 alice_payload
  /\ (400 <=? 200) && (200 <? 600) = false
  /\ one_line alice_payload = true
  /\ blank alice_payload = false
  /\ (get_euler_stats 4300 "alice" (serving (Responded 200 two_line_payload))).1 =
       (get_euler_stats 4300 "alice" (serving (Responded 200 alice_payload))).1.
Proof.
  split; [reflexivity|]. split; [reflexivity|]. split; [reflexivity|].
  split; [reflexivity|]. split; [reflexivity|].
  exact (later_lines_are_not_read 4300 "alice"
           (serving (Responded 200 two_line_payload))
           (serving (Responded 200 alice_payload))
           200 200 alice_payload "1,2,3,5,8"
           eq_refl eq_refl eq_refl eq_refl eq_refl eq_refl).
Defined.


Lemma status_outside_4xx_5xx_is_parsed_witness :
  upstream (serving (Responded 302 alice_payload)) (profile_url "alice")
    = Responded 302 alice_payload
  /\ upstream (serving (Responded 200 alice_payload)) (profile_url "alice")
       = Responded 200 alice_payload
  /\ (302 < 400 \/ 600 <= 302)
  /\ (get_euler_stats 4300 "alice" (serving (Responded 302 alice_payload))).1 =
       (get_euler_stats 4300 "alice" (serving (Responded 200 alice_payload))).1.
Proof.
  assert (Hout : 302 < 400 \/ 600 <= 302) by (left; lia).
  split; [reflexivity|]. split; [reflexivity|]. split; [exact Hout|].
  exact (status_outside_4xx_5xx_is_parsed 4300 "alice"
           (serving (Responded 302 alice_payload))
           (serving (Responded 200 alice_payload))
           302 alice_payload eq_refl eq_refl Hout).
Defined.
